(** * django-typomatic: the [generate_ts] management command

    A shallow embedding of
    [django_typomatic/management/commands/generate_ts.py]: the scan of a
    loaded module for serializer classes ([_get_serializers_for_module]),
    the dispatch on the shape of a specifier and the emission loop
    ([Command.handle], [Command._generate_ts]).

    Python values are modelled as far as the command looks at them:
    - a [str] is a [string]; [startswith], [in] and [split] are written out;
    - a class is a record of its [__module__], its [__name__] and the answer
      of [issubclass(cls, BaseSerializer)];
    - a module is the finite map of the names bound in it, [sys.modules] a
      finite map of modules, and [None] an object whose attributes are those
      of [NoneType];
    - an exception is a value of [PyExc]; code that can raise returns a
      [PyResult];
    - the calls made to the emitter ([ts_interface], [generate_ts]) and to
      [self.stdout] are recorded, in order, as a list of [Call]s. *)

From Stdlib Require Import Ascii NArith.
From stdpp Require Import gmap strings list sorting.

Open Scope string_scope.
Open Scope list_scope.

(** ** Strings *)

Module PyStr.

(** [s.startswith(p)] *)
Definition startswith (s p : string) : bool := String.prefix p s.

(** [needle in hay], for two [str] operands: [needle] occurs in [hay] as a
    contiguous run of characters. *)
Fixpoint contains (needle hay : string) : bool :=
  String.prefix needle hay ||
  match hay with
  | EmptyString => false
  | String _ rest => contains needle rest
  end.

(** [s.split(sep)] for a one-character separator: the result is never
    empty, and [''.split('.')] is [['']]. *)
Fixpoint split (sep : ascii) (s : string) : list string :=
  match s with
  | EmptyString => [EmptyString]
  | String c rest =>
      if Ascii.eqb c sep then EmptyString :: split sep rest
      else match split sep rest with
           | seg :: segs => String c seg :: segs
           | [] => [String c EmptyString]
           end
  end.

(** [s.split(sep, 1)]: cut at the first separator only. *)
Fixpoint split1 (sep : ascii) (s : string) : list string :=
  match s with
  | EmptyString => [EmptyString]
  | String c rest =>
      if Ascii.eqb c sep then [EmptyString; rest]
      else match split1 sep rest with
           | seg :: segs => String c seg :: segs
           | [] => [String c EmptyString]
           end
  end.

(** The order of [sorted] on (ASCII) strings, which [dir] uses. *)
Definition le (a b : string) : Prop := String.leb a b = true.

#[global] Instance le_dec : RelDecision le.
Proof. intros a b. unfold le. apply _. Defined.

End PyStr.

(** ** Exceptions *)

Inductive PyExc : Type :=
| CommandError (msg : string)
| AttributeError (msg : string)
| ValueError (msg : string).

Inductive PyResult (A : Type) : Type :=
| Return (a : A)
| Raise (e : PyExc).

Arguments Return {A} a.
Arguments Raise {A} e.

Definition bindR {A B : Type} (m : PyResult A) (f : A -> PyResult B) : PyResult B :=
  match m with
  | Return a => f a
  | Raise e => Raise e
  end.

(** ** Classes, modules and [sys.modules] *)

(** A class object, as far as the command inspects it.
    [is_serializer] is [issubclass(cls, BaseSerializer)]. *)
Record PyClass : Type := {
  __module__ : string;
  __name__ : string;
  is_serializer : bool
}.

#[export] Instance PyClass_eq_dec : EqDecision PyClass.
Proof. solve_decision. Defined.

(** What a name of a module can be bound to: a class, or anything else
    (a function, a submodule, a constant), for which [inspect.isclass] is
    false. *)
Inductive PyObj : Type :=
| Class (cls : PyClass)
| NotAClass.

(** The names bound in a module, and the table of loaded modules. *)
Abbreviation Namespace := (gmap string PyObj).
Abbreviation SysModules := (gmap string (gmap string PyObj)).

(** The attributes of [None] (CPython 3.11's [dir(None)]); [None.__class__]
    is the class [NoneType], the others are methods or constants. *)
Definition NoneType : PyClass :=
  {| __module__ := "builtins"; __name__ := "NoneType"; is_serializer := false |}.

Definition NoneType_attributes : list (string * PyObj) :=
  [ ("__bool__", NotAClass); ("__class__", Class NoneType);
    ("__delattr__", NotAClass); ("__dir__", NotAClass);
    ("__doc__", NotAClass); ("__eq__", NotAClass);
    ("__format__", NotAClass); ("__ge__", NotAClass);
    ("__getattribute__", NotAClass); ("__getstate__", NotAClass);
    ("__gt__", NotAClass); ("__hash__", NotAClass);
    ("__init__", NotAClass); ("__init_subclass__", NotAClass);
    ("__le__", NotAClass); ("__lt__", NotAClass);
    ("__ne__", NotAClass); ("__new__", NotAClass);
    ("__reduce__", NotAClass); ("__reduce_ex__", NotAClass);
    ("__repr__", NotAClass); ("__setattr__", NotAClass);
    ("__sizeof__", NotAClass); ("__str__", NotAClass);
    ("__subclasshook__", NotAClass) ].

(** The attributes of the object that [sys.modules.get(name, None)]
    returned: a module's bindings, or those of [None]. *)
Definition attributes (module : option Namespace) : Namespace :=
  match module with
  | Some ns => ns
  | None => list_to_map NoneType_attributes
  end.

(** [dir(module)]: the attribute names, sorted. *)
Definition dir (module : option Namespace) : list string :=
  merge_sort PyStr.le (map_to_list (attributes module)).*1.

(** [getattr(module, name)]: raises [AttributeError] on a name that is not
    an attribute. *)
Definition getattr (module : option Namespace) (name : string) : PyResult PyObj :=
  match attributes module !! name with
  | Some o => Return o
  | None => Raise (AttributeError name)
  end.

(** ** [_get_serializers_for_module] (lines 13-34) *)

(** Truth value of the [serializer_name] argument: [None] and [''] are
    false. *)
Definition truthy (serializer_name : option string) : bool :=
  match serializer_name with
  | None => false
  | Some s => negb (String.eqb s "")
  end.

(** [serializer_class.__name__ != serializer_name] *)
Definition name_differs (cls : PyClass) (serializer_name : option string) : bool :=
  match serializer_name with
  | None => true
  | Some s => negb (String.eqb (__name__ cls) s)
  end.

(** [possibly_serializers]: line 16. *)
Definition possibly_serializers (module : option Namespace) : list string :=
  filter (fun name => negb (PyStr.startswith name "_")) (dir module).

(** The three tests of the loop body on a class (lines 25, 28, 31): [true]
    when the class is appended. *)
Definition keeps (module_name : string) (serializer_name : option string)
    (serializer_class : PyClass) : bool :=
  if negb (PyStr.contains module_name (__module__ serializer_class)) then false
  else if truthy serializer_name && name_differs serializer_class serializer_name then false
  else is_serializer serializer_class.

(** The [for] loop of lines 18-32, with the list [serializers] built so far. *)
Fixpoint scan (module : option Namespace) (module_name : string)
    (serializer_name : option string) (names : list string)
    (serializers : list PyClass) : PyResult (list PyClass) :=
  match names with
  | [] => Return serializers
  | serializer_class_name :: names' =>
      bindR (getattr module serializer_class_name) (fun serializer_class =>
        match serializer_class with
        | NotAClass => scan module module_name serializer_name names' serializers
        | Class cls =>
            if keeps module_name serializer_name cls
            then scan module module_name serializer_name names' (serializers ++ [cls])
            else scan module module_name serializer_name names' serializers
        end)
  end.

Definition _get_serializers_for_module (sys_modules : SysModules)
    (module_name : string) (serializer_name : option string) : PyResult (list PyClass) :=
  let module := sys_modules !! module_name in
  scan module module_name serializer_name (possibly_serializers module) [].

(** ** The emitter and the host, as the command sees them *)

(** The keyword arguments that [_generate_ts] passes to [generate_ts]
    (lines 130-135). *)
Record GenerateTsKwargs : Type := {
  kw_enum_choices : bool;
  kw_enum_values : bool;
  kw_enum_keys : bool;
  kw_camelize : bool;
  kw_trim_serializer_output : bool;
  kw_annotations : bool
}.

(** The rendering options of the command line ([**options]). *)
Record Options : Type := {
  enum_choices : bool;
  enum_values : bool;
  enum_keys : bool;
  camelize : bool;
  trim : bool;
  annotations : bool
}.

(** A [pathlib.Path] built with [/], as the list of the joined parts. *)
Abbreviation Path := (list string).

(** One call to a collaborator: [ts_interface(context=c)(cls)],
    [generate_ts(output_path, context=c, ...)] and [self.stdout.write(msg)]. *)
Inductive Call : Type :=
| ts_interface (context : string) (cls : PyClass)
| generate_ts (output_path : Path) (context : string) (kwargs : GenerateTsKwargs)
| stdout_write (msg : string).

Module AppConfig.
(** An entry of [apps.get_app_configs()]. *)
Record t : Type := { name : string; path : string }.
End AppConfig.

(** What the command reads from the running process: the loaded modules,
    the installed applications and [str(settings.BASE_DIR.parent)]. *)
Record Host : Type := {
  sys_modules : SysModules;
  get_app_configs : list AppConfig.t;
  BASE_DIR_parent : string
}.

(** ** Running the command: an outcome and the calls made *)

Definition Run (A : Type) : Type := PyResult A * list Call.

#[global] Instance Run_ret : MRet Run := fun A a => (Return a, []).

#[global] Instance Run_bind : MBind Run := fun A B f m =>
  match m with
  | (Return a, calls) => let '(r, calls') := f a in (r, calls ++ calls')
  | (Raise e, calls) => (Raise e, calls)
  end.

Definition call (c : Call) : Run unit := (Return tt, [c]).

Definition lift {A : Type} (r : PyResult A) : Run A := (r, []).

Definition outcome {A : Type} (m : Run A) : PyResult A := m.1.
Definition calls {A : Type} (m : Run A) : list Call := m.2.

(** [for x in l: body(x)] *)
Fixpoint for_each {A : Type} (l : list A) (body : A -> Run unit) : Run unit :=
  match l with
  | [] => mret tt
  | x :: l' => body x ≫= fun _ => for_each l' body
  end.

(** ** [Command] (lines 112-167) *)

Definition _get_app_serializers (sys_modules : SysModules) (app_name : string)
  : PyResult (list PyClass) :=
  _get_serializers_for_module sys_modules (app_name +:+ ".serializers") None.

Definition _get_submodule_serializers (sys_modules : SysModules) (submodule : string)
  : PyResult (list PyClass) :=
  _get_serializers_for_module sys_modules submodule None.

(** [serializer_class.__module__.split(".")[0]], line 121: the output
    context of a class. *)
Definition OutputContext (serializer_class : PyClass) : string :=
  default "" (head (PyStr.split "." (__module__ serializer_class))).

Definition _generate_ts (serializer_class : PyClass) (output : string)
    (options : Options) : Run unit :=
  let app_name := OutputContext serializer_class in
  call (ts_interface app_name serializer_class) ≫= fun _ =>
  let output_path := [output; app_name; "index.ts"] in
  call (generate_ts output_path app_name
          {| kw_enum_choices := enum_choices options;
             kw_enum_values := enum_values options;
             kw_enum_keys := enum_keys options;
             kw_camelize := camelize options;
             kw_trim_serializer_output := trim options;
             kw_annotations := annotations options |}) ≫= fun _ =>
  call (stdout_write
          ("[+] " +:+ __module__ serializer_class +:+ "." +:+ __name__ serializer_class)).

(** An element of the list [serializers] of [handle]: a [str] of the
    command line or, after line 149, a class object. *)
Inductive PyVal : Type :=
| Str (s : string)
| Cls (cls : PyClass).

(** The body of the loop of line 151 up to line 164: from one element of
    [serializers] to [serializers_list]. A class object has no attribute
    [split]. *)
Definition resolve (sys_modules : SysModules) (serializer : PyVal)
  : PyResult (list PyClass) :=
  match serializer with
  | Cls cls =>
      Raise (AttributeError
               ("type object '" +:+ __name__ cls +:+ "' has no attribute 'split'"))
  | Str serializer =>
      match PyStr.split "." serializer with
      | [app_name] => _get_app_serializers sys_modules app_name
      | [app_name; serializer_name] =>
          _get_serializers_for_module sys_modules app_name (Some serializer_name)
      | _ =>
          match PyStr.split1 "." serializer with
          | [app_name; submodule] => _get_submodule_serializers sys_modules serializer
          | _ => Raise (ValueError "not enough values to unpack (expected 2)")
          end
      end
  end.

(** Line 146: the applications that the [--all] loop skips. *)
Definition is_external (host : Host) (app : AppConfig.t) : bool :=
  negb (PyStr.contains (BASE_DIR_parent host) (AppConfig.path app))
  || PyStr.contains ".venv" (AppConfig.path app).

(** The loop of lines 144-149 over the installed applications, extending
    the list [serializers]. *)
Fixpoint extend_with_all (host : Host) (apps : list AppConfig.t)
    (serializers : list PyVal) : PyResult (list PyVal) :=
  match apps with
  | [] => Return serializers
  | app :: apps' =>
      if is_external host app then extend_with_all host apps' serializers
      else
        bindR (_get_app_serializers (sys_modules host) (AppConfig.name app))
          (fun found => extend_with_all host apps' (serializers ++ (Cls <$> found)))
  end.

(** The loop of lines 151-167. *)
Definition process (host : Host) (serializers : list PyVal) (output : string)
    (options : Options) : Run unit :=
  for_each serializers (fun serializer =>
    lift (resolve (sys_modules host) serializer) ≫= fun serializers_list =>
    for_each serializers_list (fun s => _generate_ts s output options)).

Definition not_together : string :=
  "Only --all or --serializers must be specified, not together".

(** A list is true when it is not empty. *)
Definition nonempty {A : Type} (l : list A) : bool :=
  match l with
  | [] => false
  | _ :: _ => true
  end.

Definition handle (host : Host) (serializers : list string) (output : string)
    (all : bool) (options : Options) : Run unit :=
  if all && nonempty serializers then lift (Raise (CommandError not_together))
  else
    lift (if all
          then extend_with_all host (get_app_configs host) (Str <$> serializers)
          else Return (Str <$> serializers)) ≫= fun serializers =>
    process host serializers output options.

(** ** Derived notions used in the statements *)

(** What one visited name contributes to the result. *)
Definition candidate (module : option Namespace) (module_name : string)
    (serializer_name : option string) (name : string) : option PyClass :=
  match attributes module !! name with
  | Some (Class cls) => if keeps module_name serializer_name cls then Some cls else None
  | _ => None
  end.

(** The three calls of [_generate_ts] for one class. *)
Definition emission (serializer_class : PyClass) (output : string)
    (options : Options) : list Call :=
  calls (_generate_ts serializer_class output options).

(** The outcome of the loop of line 151 and the classes it hands to
    [_generate_ts], in order, up to the first exception. *)
Fixpoint resolved (sys_modules : SysModules) (serializers : list PyVal)
  : PyResult unit * list PyClass :=
  match serializers with
  | [] => (Return tt, [])
  | serializer :: rest =>
      match resolve sys_modules serializer with
      | Raise e => (Raise e, [])
      | Return serializers_list =>
          let '(r, later) := resolved sys_modules rest in
          (r, serializers_list ++ later)
      end
  end.

Definition is_registration (c : string) (e : Call) : bool :=
  match e with
  | ts_interface c' _ => String.eqb c' c
  | _ => false
  end.

Definition is_flush (c : string) (e : Call) : bool :=
  match e with
  | generate_ts _ c' _ => String.eqb c' c
  | _ => false
  end.

(** How often a context is registered to, and how often it is flushed. *)
Definition register_count (c : string) (tr : list Call) : nat :=
  length (List.filter (is_registration c) tr).

Definition flush_count (c : string) (tr : list Call) : nat :=
  length (List.filter (is_flush c) tr).

(** Every context that receives a declaration is flushed exactly once. *)
Definition flushed_exactly_once (tr : list Call) : Prop :=
  forall c, 0 < register_count c tr -> flush_count c tr = 1.

(** The module that a specifier makes [resolve] scan (lines 155-164). *)
Definition scanned_namespace (specifier : string) : string :=
  match PyStr.split "." specifier with
  | [app_name] => app_name +:+ ".serializers"
  | [app_name; _] => app_name
  | _ => specifier
  end.

(** A specifier whose namespace is not a loaded module. *)
Definition unresolved_namespace (sys_modules : SysModules) (specifier : string) : Prop :=
  sys_modules !! scanned_namespace specifier = None.

(** A specifier [namespace.Name] with a [Name] that is not empty and that
    is the [__name__] of no serializer which the scanned module binds under
    a public name and which passes the origin test: classes under private
    names, classes that are no serializers and classes of another origin
    may carry the name. *)
Definition names_unmatched_declaration (sys_modules : SysModules)
    (specifier : string) : Prop :=
  exists app_name serializer_name,
    PyStr.split "." specifier = [app_name; serializer_name]
    /\ serializer_name <> ""
    /\ forall ns name cls,
         sys_modules !! app_name = Some ns ->
         ns !! name = Some (Class cls) ->
         PyStr.startswith name "_" = false ->
         PyStr.contains app_name (__module__ cls) = true ->
         is_serializer cls = true ->
         __name__ cls <> serializer_name.

(** A specifier [namespace.Name] with a [Name], empty or not, that is the
    [__name__] of no class at all among those bound in the scanned module. *)
Definition names_absent_declaration (sys_modules : SysModules)
    (specifier : string) : Prop :=
  exists app_name serializer_name,
    PyStr.split "." specifier = [app_name; serializer_name]
    /\ forall ns name cls,
         sys_modules !! app_name = Some ns ->
         ns !! name = Some (Class cls) ->
         __name__ cls <> serializer_name.

(** ** The emitter *)

Module Emitter.

(** Modelled from the spec: the emitter behind [ts_interface] and
    [generate_ts] lives in [django_typomatic/__init__.py], which is not
    among the sources at hand. Section 6 gives its contract:
    [register_declaration(declaration, context_key)] is in-memory
    bookkeeping, and section 4.2 makes it a set-like operation keyed by
    the declared name within the context; [flush] writes the file of a
    context from what is registered under it. The state is the registry of
    every context and the files written so far. *)
Record state : Type := {
  registry : gmap string (gmap string PyClass);
  files : gmap (list string) (list PyClass * GenerateTsKwargs)
}.

Definition empty : state := {| registry := ∅; files := ∅ |}.

(** The declarations registered under a context, keyed by declared name. *)
Definition registered (context_key : string) (st : state) : gmap string PyClass :=
  default ∅ (registry st !! context_key).

(** Modelled from the spec: [register_declaration(declaration, context_key)],
    the body of [ts_interface(context=context_key)(declaration)] that is
    missing from the sources: "a set-like operation keyed by declared name
    within context" (section 4.2, step 2). *)
Definition register_declaration (declaration : PyClass) (context_key : string)
    (st : state) : state :=
  {| registry :=
       <[context_key := <[__name__ declaration := declaration]> (registered context_key st)]>
         (registry st);
     files := files st |}.

(** Modelled from the spec: the entries that a flush of the context emits,
    one per registered key. *)
Definition entries (context_key : string) (st : state) : list PyClass :=
  (map_to_list (registered context_key st)).*2.

(** Modelled from the spec: [flush(output_path, context_key, config)], the
    body of [generate_ts] that is missing from the sources: it writes the
    file of the context from the registry (section 6). *)
Definition flush (output_path : Path) (context_key : string)
    (config : GenerateTsKwargs) (st : state) : state :=
  {| registry := registry st;
     files := <[output_path := (entries context_key st, config)]> (files st) |}.

(** The effect of one recorded call, and of a run of calls. *)
Definition perform (st : state) (c : Call) : state :=
  match c with
  | ts_interface context cls => register_declaration cls context st
  | generate_ts output_path context kwargs => flush output_path context kwargs st
  | stdout_write _ => st
  end.

Definition run (tr : list Call) (st : state) : state := foldl perform st tr.

(** Every registered declaration sits under its own declared name. *)
Definition keyed_by_name (st : state) : Prop :=
  forall c k v, registered c st !! k = Some v -> __name__ v = k.

End Emitter.

(** ** A project to evaluate the command on *)

Module Billing.

Definition InvoiceSerializer : PyClass :=
  {| __module__ := "billing.serializers"; __name__ := "InvoiceSerializer";
     is_serializer := true |}.

Definition LineItemSerializer : PyClass :=
  {| __module__ := "billing.serializers"; __name__ := "LineItemSerializer";
     is_serializer := true |}.

(** Imported into [billing.serializers] from another package. *)
Definition SharedSerializer : PyClass :=
  {| __module__ := "shared.serializers"; __name__ := "SharedSerializer";
     is_serializer := true |}.

(** Defined in the nested namespace [billing.serializers.internal]. *)
Definition AuditSerializer : PyClass :=
  {| __module__ := "billing.serializers.internal"; __name__ := "AuditSerializer";
     is_serializer := true |}.

(** Imported into [billing.serializers] from the package [ebilling]. *)
Definition ReceiptSerializer : PyClass :=
  {| __module__ := "ebilling.serializers"; __name__ := "ReceiptSerializer";
     is_serializer := true |}.

(** The package [billing] binds its submodules only; its module
    [billing.serializers] defines two serializers and imports a third. *)
Definition modules : SysModules :=
  {[ "billing" := {[ "apps" := NotAClass; "serializers" := NotAClass ]};
     "billing.serializers" :=
       {[ "InvoiceSerializer" := Class InvoiceSerializer;
          "LineItemSerializer" := Class LineItemSerializer;
          "SharedSerializer" := Class SharedSerializer;
          "_helper" := NotAClass;
          "internal" := NotAClass ]};
     "billing.serializers.internal" :=
       {[ "AuditSerializer" := Class AuditSerializer ]} ]}.

(** The same project after [billing/serializers.py] also imports
    [AuditSerializer] from its submodule and [ReceiptSerializer] from the
    package [ebilling]. *)
Definition modules_with_imports : SysModules :=
  <[ "billing.serializers" :=
       {[ "InvoiceSerializer" := Class InvoiceSerializer;
          "AuditSerializer" := Class AuditSerializer;
          "ReceiptSerializer" := Class ReceiptSerializer ]} ]> modules.

Definition apps : list AppConfig.t :=
  [ {| AppConfig.name := "rest_framework";
       AppConfig.path := "/srv/shop/.venv/lib/python3.11/site-packages/rest_framework" |};
    {| AppConfig.name := "billing"; AppConfig.path := "/srv/shop/billing" |} ].

Definition host : Host :=
  {| sys_modules := modules; get_app_configs := apps; BASE_DIR_parent := "/srv" |}.

Definition options : Options :=
  {| enum_choices := false; enum_values := false; enum_keys := false;
     camelize := true; trim := true; annotations := false |}.

End Billing.

(** ** Notions used in the further properties *)

(** [s.count(sep)] for a one-character separator. *)
Fixpoint count_sep (sep : ascii) (s : string) : nat :=
  match s with
  | EmptyString => 0
  | String c rest => (if Ascii.eqb c sep then 1 else 0) + count_sep sep rest
  end.

(** The keyword arguments that lines 130-135 build from the options. *)
Definition kwargs_of (options : Options) : GenerateTsKwargs :=
  {| kw_enum_choices := enum_choices options;
     kw_enum_values := enum_values options;
     kw_enum_keys := enum_keys options;
     kw_camelize := camelize options;
     kw_trim_serializer_output := trim options;
     kw_annotations := annotations options |}.

(** The line that line 137 writes for a class. *)
Definition label (cls : PyClass) : string :=
  "[+] " +:+ __module__ cls +:+ "." +:+ __name__ cls.

(** A project in which [billing.serializers] binds one class under two
    names ([Invoice = InvoiceSerializer]). *)
Definition modules_with_alias : SysModules :=
  {[ "billing.serializers" :=
       {[ "InvoiceSerializer" := Class Billing.InvoiceSerializer;
          "Invoice" := Class Billing.InvoiceSerializer ]} ]}.

(** The project of [Billing] after [billing/__init__.py] imports
    [InvoiceSerializer] from [billing.serializers] (and also binds a private
    helper class named [Draft]). *)
Definition Draft : PyClass :=
  {| __module__ := "billing.serializers"; __name__ := "Draft";
     is_serializer := true |}.

Definition modules_with_reexport : SysModules :=
  <[ "billing" :=
       {[ "InvoiceSerializer" := Class Billing.InvoiceSerializer;
          "_Draft" := Class Draft;
          "serializers" := NotAClass ]} ]> Billing.modules.

Definition host_with_reexport : Host :=
  {| sys_modules := modules_with_reexport;
     get_app_configs := Billing.apps;
     BASE_DIR_parent := "/srv" |}.

Definition host_with_alias : Host :=
  {| sys_modules := modules_with_alias;
     get_app_configs := Billing.apps;
     BASE_DIR_parent := "/srv" |}.

(** ** Facts about the string operations *)

Section Strings.

Variable sep : ascii.

Lemma split_not_nil (s : string) : PyStr.split sep s <> [].
Proof.
  destruct s as [|c s]; simpl; [discriminate|].
  destruct (Ascii.eqb c sep); [discriminate|].
  destruct (PyStr.split sep s); discriminate.
Qed.

(** A string that splits in two segments or more is cut in exactly two
    by [split(sep, 1)], so that the unpacking of line 163 succeeds. *)
Lemma split1_two (s : string) :
  2 <= length (PyStr.split sep s) ->
  exists a b, PyStr.split1 sep s = [a; b].
Proof.
  induction s as [|c s IH]; simpl.
  - lia.
  - destruct (Ascii.eqb c sep); [eauto|].
    destruct (PyStr.split sep s) as [|seg segs] eqn:E.
    + simpl. lia.
    + simpl in *. intros Hlen.
      destruct (IH Hlen) as (a & b & ->). eauto.
Qed.

Lemma contains_refl (s : string) : PyStr.contains s s = true.
Proof.
  destruct s as [|c s]; simpl; [reflexivity|].
  destruct (Ascii.ascii_dec c c) as [_|n]; [|congruence].
  assert (H : String.prefix s s = true).
  { clear. induction s as [|c s IH]; simpl; [reflexivity|].
    destruct (Ascii.ascii_dec c c); [exact IH|congruence]. }
  rewrite H. reflexivity.
Qed.

End Strings.

(** ** Facts about [dir], [getattr] and the scan *)

Lemma elem_of_dir (module : option Namespace) (name : string) :
  name ∈ dir module <-> is_Some (attributes module !! name).
Proof.
  unfold dir. rewrite merge_sort_Permutation, list_elem_of_fmap. split.
  - intros ([k o] & -> & Hin). apply elem_of_map_to_list in Hin. eauto.
  - intros [o Ho]. exists (name, o). split; [reflexivity|].
    by apply elem_of_map_to_list.
Qed.

(** The names that the loop visits: bound in the module and not starting
    with an underscore. *)
Lemma elem_of_possibly_serializers (module : option Namespace) (name : string) :
  name ∈ possibly_serializers module <->
  is_Some (attributes module !! name) /\ PyStr.startswith name "_" = false.
Proof.
  unfold possibly_serializers. rewrite list_elem_of_filter, elem_of_dir.
  destruct (PyStr.startswith name "_"); simpl; intuition (auto; discriminate).
Qed.

(** Nothing of [None] passes the underscore filter. *)
Lemma possibly_serializers_None : possibly_serializers None = [].
Proof. vm_compute. reflexivity. Qed.

Lemma scan_total (module : option Namespace) (module_name : string)
    (serializer_name : option string) (names : list string) :
  Forall (fun name => is_Some (attributes module !! name)) names ->
  forall serializers,
    scan module module_name serializer_name names serializers
    = Return (serializers ++ omap (candidate module module_name serializer_name) names).
Proof.
  induction 1 as [|name names [o Ho] _ IH]; intros acc; simpl.
  - by rewrite app_nil_r.
  - unfold getattr, candidate. rewrite Ho. simpl.
    destruct o as [cls|]; [|apply IH].
    destruct (keeps module_name serializer_name cls); [|apply IH].
    rewrite IH, <- app_assoc. reflexivity.
Qed.

(** The scan never raises: every visited name comes from [dir]. *)
Lemma _get_serializers_for_module_total (sys_modules : SysModules)
    (module_name : string) (serializer_name : option string) :
  _get_serializers_for_module sys_modules module_name serializer_name
  = Return (omap (candidate (sys_modules !! module_name) module_name serializer_name)
              (possibly_serializers (sys_modules !! module_name))).
Proof.
  unfold _get_serializers_for_module. rewrite scan_total; [reflexivity|].
  apply Forall_forall. intros name Hin.
  by apply elem_of_possibly_serializers in Hin as [? _].
Qed.

Lemma _get_serializers_for_module_unloaded (sys_modules : SysModules)
    (module_name : string) (serializer_name : option string) :
  sys_modules !! module_name = None ->
  _get_serializers_for_module sys_modules module_name serializer_name = Return [].
Proof.
  intros Hnone. rewrite _get_serializers_for_module_total, Hnone.
  by rewrite possibly_serializers_None.
Qed.

(** Membership in the result of the scan of a loaded module. *)
Lemma elem_of_get_serializers (sys_modules : SysModules) (module_name : string)
    (serializer_name : option string) (ns : Namespace) (cls : PyClass) :
  sys_modules !! module_name = Some ns ->
  (exists result,
      _get_serializers_for_module sys_modules module_name serializer_name = Return result
      /\ cls ∈ result)
  <-> (exists name, ns !! name = Some (Class cls)
                    /\ PyStr.startswith name "_" = false
                    /\ keeps module_name serializer_name cls = true).
Proof.
  intros Hns. rewrite _get_serializers_for_module_total, Hns. split.
  - intros (result & [= <-] & Hin).
    apply list_elem_of_omap in Hin as (name & Hname & Hcand).
    apply elem_of_possibly_serializers in Hname as [_ Hpub].
    unfold candidate in Hcand. simpl in Hcand.
    destruct (ns !! name) as [[c|]|] eqn:E; try discriminate.
    destruct (keeps module_name serializer_name c) eqn:K; [|discriminate].
    injection Hcand as ->. eauto.
  - intros (name & Hb & Hpub & Hk). eexists. split; [reflexivity|].
    apply list_elem_of_omap. exists name. split.
    + apply elem_of_possibly_serializers. simpl. rewrite Hb. eauto.
    + unfold candidate. simpl. by rewrite Hb, Hk.
Qed.

(** ** Facts about the run of the command *)

Lemma _generate_ts_run (cls : PyClass) (output : string) (options : Options) :
  _generate_ts cls output options = (Return tt, emission cls output options).
Proof. reflexivity. Qed.

(** The inner loop of line 166 never raises and emits one triple of calls
    per class. *)
Lemma for_each_generate_ts (l : list PyClass) (output : string) (options : Options) :
  for_each l (fun s => _generate_ts s output options)
  = (Return tt, l ≫= fun s => emission s output options).
Proof.
  induction l as [|cls l IH]; [reflexivity|].
  simpl. rewrite IH. reflexivity.
Qed.

Lemma lift_Return_bind {A B : Type} (a : A) (f : A -> Run B) :
  lift (Return a) ≫= f = f a.
Proof. unfold lift. cbn. by destruct (f a). Qed.

Lemma lift_Raise_bind {A B : Type} (e : PyExc) (f : A -> Run B) :
  lift (Raise e) ≫= f = (Raise e, []).
Proof. reflexivity. Qed.

Lemma process_cons (host : Host) (v : PyVal) (rest : list PyVal) (output : string)
    (options : Options) :
  process host (v :: rest) output options
  = match resolve (sys_modules host) v with
    | Raise e => (Raise e, [])
    | Return l =>
        ((process host rest output options).1,
         (l ≫= fun s => emission s output options)
           ++ (process host rest output options).2)
    end.
Proof.
  unfold process at 1. cbn [for_each].
  destruct (resolve (sys_modules host) v) as [l|e].
  - rewrite lift_Return_bind, for_each_generate_ts. fold (process host rest output options).
    cbn. by destruct (process host rest output options).
  - reflexivity.
Qed.

Lemma process_resolved (host : Host) (serializers : list PyVal) (output : string)
    (options : Options) :
  process host serializers output options
  = ((resolved (sys_modules host) serializers).1,
     (resolved (sys_modules host) serializers).2 ≫= fun s => emission s output options).
Proof.
  induction serializers as [|v rest IH]; [reflexivity|].
  rewrite process_cons. simpl.
  destruct (resolve (sys_modules host) v) as [l|e]; [|reflexivity].
  rewrite IH. destruct (resolved (sys_modules host) rest) as [r later]. cbn.
  by rewrite bind_app.
Qed.

(** Whatever the arguments, the calls of a run are the triples of the
    classes it processed, one after the other. *)
Lemma handle_calls (host : Host) (serializers : list string) (output : string)
    (all : bool) (options : Options) :
  exists processed : list PyClass,
    calls (handle host serializers output all options)
    = processed ≫= fun s => emission s output options.
Proof.
  unfold handle. destruct (all && nonempty serializers).
  - by exists [].
  - destruct (if all then _ else _) as [vs|e]; cbn.
    + rewrite process_resolved. cbn. eauto.
    + by exists [].
Qed.

Section Emissions.

Variables (output : string) (options : Options).

Local Abbreviation emit := (fun s : PyClass => emission s output options).

Lemma counts_emission (c : string) (cls : PyClass) :
  register_count c (emit cls) = flush_count c (emit cls).
Proof. unfold register_count, flush_count. simpl. by destruct (String.eqb _ c). Qed.

Lemma count_app (f : Call -> bool) (tr1 tr2 : list Call) :
  length (List.filter f (tr1 ++ tr2))
  = length (List.filter f tr1) + length (List.filter f tr2).
Proof. by rewrite List.filter_app, length_app. Qed.

Lemma counts_emissions (c : string) (l : list PyClass) :
  flush_count c (l ≫= emit) = register_count c (l ≫= emit).
Proof.
  induction l as [|cls l IH]; [reflexivity|].
  change ((cls :: l) ≫= emit) with (emit cls ++ (l ≫= emit)).
  unfold flush_count, register_count in *.
  rewrite !count_app, IH. f_equal. symmetry. apply counts_emission.
Qed.

(** In a run of triples, the call after a registration is the flush of
    the same context to the file of that context. *)
Lemma flush_follows_registration (l : list PyClass) (i : nat) (c : string)
    (cls : PyClass) :
  (l ≫= emit) !! i = Some (ts_interface c cls) ->
  exists kwargs,
    (l ≫= emit) !! S i = Some (generate_ts [output; c; "index.ts"] c kwargs).
Proof.
  revert i. induction l as [|d l IH]; intros i; [simpl; by rewrite lookup_nil|].
  change ((d :: l) ≫= emit) with (emit d ++ (l ≫= emit)).
  destruct i as [|[|[|i]]]; simpl.
  - intros [= <- <-]. eauto.
  - discriminate.
  - discriminate.
  - apply IH.
Qed.

Lemma registration_context (l : list PyClass) (c : string) (cls : PyClass) :
  ts_interface c cls ∈ l ≫= emit -> cls ∈ l /\ c = OutputContext cls.
Proof.
  rewrite list_elem_of_bind. intros (d & Hin & Hd).
  unfold emission in Hin. simpl in Hin.
  rewrite !elem_of_cons in Hin.
  destruct Hin as [[= -> ->]|[[=]|[[=]|Hin]]]; [done|].
  by apply not_elem_of_nil in Hin.
Qed.

Lemma flush_context (l : list PyClass) (p : Path) (c : string)
    (kwargs : GenerateTsKwargs) :
  generate_ts p c kwargs ∈ l ≫= emit ->
  p = [output; c; "index.ts"] /\ exists cls, cls ∈ l /\ c = OutputContext cls.
Proof.
  rewrite list_elem_of_bind. intros (d & Hin & Hd).
  unfold emission in Hin. simpl in Hin.
  rewrite !elem_of_cons in Hin.
  destruct Hin as [[=]|[[= -> -> ->]|[[=]|Hin]]]; [eauto|].
  by apply not_elem_of_nil in Hin.
Qed.

End Emissions.

(** ** The shapes of a specifier *)

Lemma resolve_one_segment (sys_modules : SysModules) (s app_name : string) :
  PyStr.split "." s = [app_name] ->
  resolve sys_modules (Str s)
  = _get_serializers_for_module sys_modules (app_name +:+ ".serializers") None.
Proof. intros E. unfold resolve. by rewrite E. Qed.

(** Line 160 scans the module [app_name] itself. *)
Lemma resolve_two_segments (sys_modules : SysModules) (s app_name serializer_name : string) :
  PyStr.split "." s = [app_name; serializer_name] ->
  resolve sys_modules (Str s)
  = _get_serializers_for_module sys_modules app_name (Some serializer_name).
Proof. intros E. unfold resolve. by rewrite E. Qed.

Lemma resolve_more_segments (sys_modules : SysModules) (s : string) :
  3 <= length (PyStr.split "." s) ->
  resolve sys_modules (Str s) = _get_serializers_for_module sys_modules s None.
Proof.
  intros Hlen. unfold resolve.
  destruct (split1_two "." s) as (a & b & ->); [lia|].
  destruct (PyStr.split "." s) as [|x [|y [|z l]]]; simpl in Hlen; try lia.
  reflexivity.
Qed.

Lemma resolve_scanned_namespace (sys_modules : SysModules) (s : string) :
  exists serializer_name,
    resolve sys_modules (Str s)
    = _get_serializers_for_module sys_modules (scanned_namespace s) serializer_name.
Proof.
  unfold scanned_namespace.
  destruct (PyStr.split "." s) as [|x [|y [|z l]]] eqn:E.
  - by apply split_not_nil in E.
  - eexists. by apply resolve_one_segment.
  - eexists. by apply resolve_two_segments.
  - eexists. apply resolve_more_segments. rewrite E. simpl. lia.
Qed.

(** On a string, [resolve] returns: it never raises. *)
Lemma resolve_str_total (sys_modules : SysModules) (s : string) :
  exists serializers_list, resolve sys_modules (Str s) = Return serializers_list.
Proof.
  destruct (resolve_scanned_namespace sys_modules s) as [n ->].
  rewrite _get_serializers_for_module_total. eauto.
Qed.

(** ** The [--all] loop *)

Lemma extend_with_all_classes (host : Host) (apps : list AppConfig.t)
    (serializers : list PyVal) :
  exists found : list PyClass,
    extend_with_all host apps serializers = Return (serializers ++ (Cls <$> found)).
Proof.
  revert serializers. induction apps as [|app apps IH]; intros acc; simpl.
  - exists []. by rewrite app_nil_r.
  - destruct (is_external host app); [apply IH|].
    unfold _get_app_serializers. rewrite _get_serializers_for_module_total. simpl.
    destruct (IH (acc ++ (Cls <$> omap
                (candidate (sys_modules host !! (AppConfig.name app +:+ ".serializers"))
                   (AppConfig.name app +:+ ".serializers") None)
                (possibly_serializers
                   (sys_modules host !! (AppConfig.name app +:+ ".serializers"))))))
      as [found ->].
    eexists. by rewrite <- app_assoc, <- fmap_app.
Qed.

(** The loop of line 151 on a list of class objects stops at the first. *)
Lemma process_classes (host : Host) (found : list PyClass) (output : string)
    (options : Options) :
  calls (process host (Cls <$> found) output options) = []
  /\ forall msg, outcome (process host (Cls <$> found) output options)
                 <> Raise (CommandError msg).
Proof. destruct found as [|cls found]; by split. Qed.

Lemma handle_all_empty (host : Host) (output : string) (options : Options) :
  handle host [] output true options
  = lift (extend_with_all host (get_app_configs host) []) ≫= fun serializers =>
    process host serializers output options.
Proof. reflexivity. Qed.

(** Under [--all] no call is made to the emitter, whatever is installed. *)
Lemma all_packages_emits_nothing (host : Host) (serializers : list string)
    (output : string) (options : Options) :
  calls (handle host serializers output true options) = [].
Proof.
  destruct serializers as [|s l]; [|reflexivity]. rewrite handle_all_empty.
  destruct (extend_with_all_classes host (get_app_configs host) []) as [found ->].
  rewrite lift_Return_bind. apply process_classes.
Qed.

(** ** The origin test of the scan (line 25) *)

(** What the scan guarantees about the origin of a class it returns: the
    scanned module name occurs in the [__module__] of the class. *)
Lemma kept_origin_contains (sys_modules : SysModules) (module_name : string)
    (serializer_name : option string) (result : list PyClass) (cls : PyClass) :
  _get_serializers_for_module sys_modules module_name serializer_name = Return result ->
  cls ∈ result ->
  PyStr.contains module_name (__module__ cls) = true /\ is_serializer cls = true.
Proof.
  rewrite _get_serializers_for_module_total. intros [= <-] Hin.
  apply list_elem_of_omap in Hin as (name & _ & Hc).
  unfold candidate in Hc. destruct (attributes _ !! name) as [[c|]|]; try discriminate.
  destruct (keeps module_name serializer_name c) eqn:K; [|discriminate].
  injection Hc as ->. unfold keeps in K.
  destruct (PyStr.contains module_name (__module__ cls)); [|discriminate].
  split; [reflexivity|]. simpl in K.
  by destruct (truthy serializer_name && name_differs cls serializer_name).
Qed.

(** A serializer defined in the scanned module under a public name is
    returned. *)
Lemma defined_in_namespace_is_kept (sys_modules : SysModules) (module_name : string)
    (ns : Namespace) (name : string) (cls : PyClass) :
  sys_modules !! module_name = Some ns ->
  ns !! name = Some (Class cls) ->
  PyStr.startswith name "_" = false ->
  __module__ cls = module_name ->
  is_serializer cls = true ->
  exists result,
    _get_serializers_for_module sys_modules module_name None = Return result
    /\ cls ∈ result.
Proof.
  intros Hns Hb Hpub Horigin Hser.
  apply (elem_of_get_serializers _ _ None ns cls Hns). exists name.
  repeat split; [done..|]. unfold keeps. by rewrite Horigin, contains_refl.
Qed.

(** The truth test of line 28 takes an empty name for no name at all:
    [''] as [serializer_name] filters nothing. *)
Example empty_name_is_no_filter :
  _get_serializers_for_module Billing.modules "billing.serializers" (Some "")
  = _get_serializers_for_module Billing.modules "billing.serializers" None.
Proof. vm_compute. reflexivity. Qed.

(** C1. The scan keeps classes whose [__module__] differs from the scanned
    namespace: with [billing.serializers] importing [AuditSerializer] from
    its submodule [billing.serializers.internal] and [ReceiptSerializer]
    from the package [ebilling], the specifier [billing] resolves to both
    of them besides [InvoiceSerializer], because line 25 tests that the
    scanned name occurs in [__module__], not that the two are equal. *)
Theorem C1_imported_classes_are_kept :
  resolve Billing.modules_with_imports (Str "billing")
  = Return [Billing.AuditSerializer; Billing.InvoiceSerializer; Billing.ReceiptSerializer]
  /\ __module__ Billing.AuditSerializer <> scanned_namespace "billing"
  /\ __module__ Billing.ReceiptSerializer <> scanned_namespace "billing".
Proof. split; [vm_compute; reflexivity|]. split; discriminate. Qed.

(** C2. A two-segment specifier does not scan the namespace of the
    one-segment case: [billing] scans [billing.serializers] and finds the
    two serializers defined there, [billing.InvoiceSerializer] scans the
    package module [billing] and finds nothing. *)
Theorem C2_two_segments_scan_the_package :
  scanned_namespace "billing" = "billing.serializers"
  /\ resolve Billing.modules (Str "billing")
     = Return [Billing.InvoiceSerializer; Billing.LineItemSerializer]
  /\ scanned_namespace "billing.InvoiceSerializer" = "billing"
  /\ resolve Billing.modules (Str "billing.InvoiceSerializer")
     = _get_serializers_for_module Billing.modules "billing" (Some "InvoiceSerializer")
  /\ resolve Billing.modules (Str "billing.InvoiceSerializer") = Return [].
Proof. repeat split; vm_compute; reflexivity. Qed.

(** ** Selection of the mode (lines 140-149) *)

(** C4. With [--all] and a list of specifiers that is not empty, the run
    raises [CommandError] at once: whatever the host holds, no call is made
    to the emitter or to the output. *)
Theorem C4_both_modes_is_fatal (host : Host) (serializers : list string)
    (output : string) (options : Options) :
  serializers <> [] ->
  handle host serializers output true options
  = (Raise (CommandError not_together), []).
Proof. intros Hne. destruct serializers as [|s l]; [congruence|reflexivity]. Qed.

Lemma C4_both_modes_is_fatal_witness :
  ["billing"] <> []
  /\ handle Billing.host ["billing"] "./types" true Billing.options
     = (Raise (CommandError not_together), []).
Proof.
  split; [discriminate|].
  apply (C4_both_modes_is_fatal Billing.host ["billing"] "./types" Billing.options).
  discriminate.
Defined.

(** C5. Under [--all] the list of specifiers is extended with the class
    objects that [_get_app_serializers] returns (line 149), not with the
    names of the packages: the loop of line 151 then calls [split] on a
    class and the run ends in [AttributeError] without emitting anything,
    where the specifier [billing] given explicitly emits both serializers
    of the package. *)
Theorem C5_all_packages_raises :
  extend_with_all Billing.host Billing.apps []
  = Return [Cls Billing.InvoiceSerializer; Cls Billing.LineItemSerializer]
  /\ handle Billing.host [] "./types" true Billing.options
     = (Raise (AttributeError "type object 'InvoiceSerializer' has no attribute 'split'"), [])
  /\ handle Billing.host ["billing"] "./types" false Billing.options
     = (Return tt,
        emission Billing.InvoiceSerializer "./types" Billing.options
          ++ emission Billing.LineItemSerializer "./types" Billing.options).
Proof. repeat split; vm_compute; reflexivity. Qed.

(** C10. With [--all] and an empty list of specifiers the test of line 140
    is false: the run goes through the loop over the installed
    applications and never ends in [CommandError]. *)
Theorem C10_empty_list_with_all (host : Host) (output : string) (options : Options) :
  handle host [] output true options
  = (lift (extend_with_all host (get_app_configs host) []) ≫= fun serializers =>
     process host serializers output options)
  /\ forall msg, outcome (handle host [] output true options) <> Raise (CommandError msg).
Proof.
  split; [apply handle_all_empty|]. intros msg. rewrite handle_all_empty.
  destruct (extend_with_all_classes host (get_app_configs host) []) as [found ->].
  rewrite lift_Return_bind. apply process_classes.
Qed.

(** ** Flushing (lines 120-137) *)

(** C3, as stated, fails: the specifier [billing] registers two
    declarations under the context [billing], and the context is flushed
    twice. *)
Lemma C3_flushed_twice :
  ~ flushed_exactly_once
      (calls (handle Billing.host ["billing"] "./types" false Billing.options)).
Proof.
  intros H. specialize (H "billing"). vm_compute in H.
  assert (H2 : 2 = 1) by (apply H; lia). discriminate.
Qed.

(** C3, amended. In every run a context is flushed once for each
    declaration registered under it: the call that follows a registration
    is the flush of the same context to the file of that context, so that
    the flushes of a context are as many as its registrations and the last
    of them comes after all of these. *)
Theorem C3_flush_follows_each_registration (host : Host) (serializers : list string)
    (output : string) (all : bool) (options : Options) :
  let tr := calls (handle host serializers output all options) in
  (forall c, flush_count c tr = register_count c tr)
  /\ (forall i c cls,
         tr !! i = Some (ts_interface c cls) ->
         exists kwargs,
           tr !! S i = Some (generate_ts [output; c; "index.ts"] c kwargs)).
Proof.
  intros tr. subst tr.
  destruct (handle_calls host serializers output all options) as [processed ->].
  split.
  - intros c. apply counts_emissions.
  - intros i c cls. apply flush_follows_registration.
Qed.

Lemma C3_flush_follows_each_registration_witness :
  flush_count "billing"
    (calls (handle Billing.host ["billing"] "./types" false Billing.options)) = 2
  /\ register_count "billing"
       (calls (handle Billing.host ["billing"] "./types" false Billing.options)) = 2.
Proof.
  pose proof (C3_flush_follows_each_registration Billing.host ["billing"] "./types"
                false Billing.options) as [Hcount _].
  split; [rewrite Hcount|]; vm_compute; reflexivity.
Defined.

(** ** Resolution misses *)

Lemma omap_nil_of_None {A B : Type} (f : A -> option B) (l : list A) :
  (forall x, x ∈ l -> f x = None) -> omap f l = [].
Proof.
  intros Hnone. destruct (omap f l) as [|y l'] eqn:E; [reflexivity|].
  assert (Hy : y ∈ omap f l) by (rewrite E; left).
  apply list_elem_of_omap in Hy as (x & Hx & Hfx).
  rewrite (Hnone x Hx) in Hfx. discriminate.
Qed.

(** An iteration of the loop of line 151 that resolves to nothing leaves
    no trace: the run goes on with the next specifier. *)
Lemma process_skip (host : Host) (v : PyVal) (rest : list PyVal) (output : string)
    (options : Options) :
  resolve (sys_modules host) v = Return [] ->
  process host (v :: rest) output options = process host rest output options.
Proof.
  intros E. rewrite process_cons, E. simpl.
  by destruct (process host rest output options).
Qed.

Lemma unmatched_name_resolves_to_nothing (sys_modules : SysModules)
    (app_name serializer_name : string) :
  serializer_name <> "" ->
  (forall ns name cls,
      sys_modules !! app_name = Some ns ->
      ns !! name = Some (Class cls) ->
      PyStr.startswith name "_" = false ->
      PyStr.contains app_name (__module__ cls) = true ->
      is_serializer cls = true ->
      __name__ cls <> serializer_name) ->
  _get_serializers_for_module sys_modules app_name (Some serializer_name) = Return [].
Proof.
  intros Hne Hnames. rewrite _get_serializers_for_module_total. f_equal.
  destruct (sys_modules !! app_name) as [ns|] eqn:Hns;
    [|by rewrite possibly_serializers_None].
  apply omap_nil_of_None. intros name Hin.
  apply elem_of_possibly_serializers in Hin as [_ Hpub].
  unfold candidate. simpl.
  destruct (ns !! name) as [[cls|]|] eqn:Hb; try reflexivity.
  unfold keeps.
  destruct (PyStr.contains app_name (__module__ cls)) eqn:Horigin; [|reflexivity].
  simpl. apply String.eqb_neq in Hne. rewrite Hne. simpl.
  destruct (String.eqb_spec (__name__ cls) serializer_name) as [Heq|_]; [|reflexivity].
  simpl. destruct (is_serializer cls) eqn:Hser; [|reflexivity].
  destruct (Hnames ns name cls eq_refl Hb Hpub Horigin Hser Heq).
Qed.

(** ** Output contexts (line 121) *)

Lemma OutputContext_head (cls : PyClass) :
  head (PyStr.split "." (__module__ cls)) = Some (OutputContext cls).
Proof.
  unfold OutputContext.
  destruct (PyStr.split "." (__module__ cls)) eqn:E; [|reflexivity].
  by apply split_not_nil in E.
Qed.

(** C7. In every run, a declaration is registered under the first
    dot-separated segment of its [__module__], whatever specifier it was
    reached through; hence two registered declarations whose [__module__]
    share the first segment are registered under the same context. *)
Theorem C7_context_is_first_segment (host : Host) (serializers : list string)
    (output : string) (all : bool) (options : Options)
    (c1 c2 : string) (cls1 cls2 : PyClass) :
  ts_interface c1 cls1 ∈ calls (handle host serializers output all options) ->
  ts_interface c2 cls2 ∈ calls (handle host serializers output all options) ->
  head (PyStr.split "." (__module__ cls1)) = Some c1
  /\ head (PyStr.split "." (__module__ cls2)) = Some c2
  /\ (head (PyStr.split "." (__module__ cls1))
      = head (PyStr.split "." (__module__ cls2)) -> c1 = c2).
Proof.
  destruct (handle_calls host serializers output all options) as [processed ->].
  intros H1 H2.
  apply registration_context in H1 as [_ ->].
  apply registration_context in H2 as [_ ->].
  rewrite !OutputContext_head. repeat split. congruence.
Qed.

Lemma C7_context_is_first_segment_witness :
  ts_interface "billing" Billing.InvoiceSerializer
    ∈ calls (handle Billing.host ["billing"; "billing.serializers.internal"]
               "./types" false Billing.options)
  /\ ts_interface "billing" Billing.AuditSerializer
       ∈ calls (handle Billing.host ["billing"; "billing.serializers.internal"]
                  "./types" false Billing.options)
  /\ head (PyStr.split "." (__module__ Billing.InvoiceSerializer)) = Some "billing"
  /\ head (PyStr.split "." (__module__ Billing.AuditSerializer)) = Some "billing".
Proof.
  assert (H1 : ts_interface "billing" Billing.InvoiceSerializer
                 ∈ calls (handle Billing.host ["billing"; "billing.serializers.internal"]
                            "./types" false Billing.options)).
  { vm_compute. apply list_elem_of_here. }
  assert (H2 : ts_interface "billing" Billing.AuditSerializer
                 ∈ calls (handle Billing.host ["billing"; "billing.serializers.internal"]
                            "./types" false Billing.options)).
  { vm_compute. do 6 apply list_elem_of_further. apply list_elem_of_here. }
  split; [exact H1|]. split; [exact H2|].
  destruct (C7_context_is_first_segment Billing.host
              ["billing"; "billing.serializers.internal"] "./types" false
              Billing.options "billing" "billing"
              Billing.InvoiceSerializer Billing.AuditSerializer H1 H2)
    as (Ha & Hb & _).
  split; [exact Ha|exact Hb].
Defined.

(** ** Nested namespaces (lines 162-164) *)

Lemma keeps_None (module_name : string) (cls : PyClass) :
  keeps module_name None cls
  = PyStr.contains module_name (__module__ cls) && is_serializer cls.
Proof. unfold keeps. by destruct (PyStr.contains module_name (__module__ cls)). Qed.

(** C8. A specifier of three segments or more is taken whole as the name
    of the module to scan, with no name filter: the scan visits exactly the
    names bound in that module that do not start with an underscore, and
    returns the classes among them that pass the origin test and derive
    from the base serializer. *)
Theorem C8_three_or_more_segments (sys_modules : SysModules) (specifier : string)
    (ns : Namespace) :
  3 <= length (PyStr.split "." specifier) ->
  sys_modules !! specifier = Some ns ->
  resolve sys_modules (Str specifier)
  = _get_serializers_for_module sys_modules specifier None
  /\ (forall name,
         name ∈ possibly_serializers (sys_modules !! specifier)
         <-> is_Some (ns !! name) /\ PyStr.startswith name "_" = false)
  /\ (forall cls,
         (exists result,
             resolve sys_modules (Str specifier) = Return result /\ cls ∈ result)
         <-> (exists name,
                 ns !! name = Some (Class cls)
                 /\ PyStr.startswith name "_" = false
                 /\ PyStr.contains specifier (__module__ cls) = true
                 /\ is_serializer cls = true)).
Proof.
  intros Hlen Hns. rewrite (resolve_more_segments _ _ Hlen).
  split; [reflexivity|]. split.
  - intros name. rewrite elem_of_possibly_serializers, Hns. reflexivity.
  - intros cls. rewrite (elem_of_get_serializers _ _ None ns cls Hns).
    split; intros (name & Hb & Hpub & Hk); exists name.
    + rewrite keeps_None in Hk. apply andb_true_iff in Hk as [? ?]. auto.
    + rewrite keeps_None. destruct Hk as (-> & ->). auto.
Qed.

Lemma C8_three_or_more_segments_witness :
  resolve Billing.modules (Str "billing.serializers.internal")
  = _get_serializers_for_module Billing.modules "billing.serializers.internal" None
  /\ resolve Billing.modules (Str "billing.serializers.internal")
     = Return [Billing.AuditSerializer].
Proof.
  destruct (C8_three_or_more_segments Billing.modules "billing.serializers.internal"
              {[ "AuditSerializer" := Class Billing.AuditSerializer ]})
    as (Hwhole & _ & _).
  - vm_compute. lia.
  - vm_compute. reflexivity.
  - split; [exact Hwhole|]. vm_compute. reflexivity.
Defined.

(** ** Registration in the emitter *)

Section Registration.

Import Emitter.

Lemma registered_register_eq (d : PyClass) (c : string) (st : state) :
  registered c (register_declaration d c st)
  = <[__name__ d := d]> (registered c st).
Proof. unfold registered at 1. simpl. by rewrite lookup_insert_eq. Qed.

Lemma registered_register_ne (d : PyClass) (c c' : string) (st : state) :
  c <> c' ->
  registered c' (register_declaration d c st) = registered c' st.
Proof. intros Hne. unfold registered. simpl. by rewrite lookup_insert_ne. Qed.

Lemma register_twice (d : PyClass) (c : string) (st : state) :
  register_declaration d c (register_declaration d c st)
  = register_declaration d c st.
Proof.
  unfold register_declaration at 1. rewrite registered_register_eq.
  rewrite insert_insert_eq. simpl. by rewrite insert_insert_eq.
Qed.

Lemma flush_twice (p : Path) (c : string) (kwargs : GenerateTsKwargs) (st : state) :
  flush p c kwargs (flush p c kwargs st) = flush p c kwargs st.
Proof. unfold flush. simpl. by rewrite insert_insert_eq. Qed.

(** Registering again after the flush changes nothing either. *)
Lemma register_after_flush (d : PyClass) (c : string) (p : Path)
    (kwargs : GenerateTsKwargs) (st : state) :
  register_declaration d c (flush p c kwargs (register_declaration d c st))
  = flush p c kwargs (register_declaration d c st).
Proof.
  pose proof (f_equal registry (register_twice d c st)) as H.
  unfold flush. unfold register_declaration at 1. f_equal. exact H.
Qed.

Lemma keyed_by_name_register (d : PyClass) (c : string) (st : state) :
  keyed_by_name st -> keyed_by_name (register_declaration d c st).
Proof.
  intros Hst c' k v. destruct (decide (c = c')) as [<-|Hne].
  - rewrite registered_register_eq.
    destruct (decide (__name__ d = k)) as [<-|Hk].
    + rewrite lookup_insert_eq. by intros [= <-].
    + rewrite lookup_insert_ne by done. apply Hst.
  - rewrite registered_register_ne by done. apply Hst.
Qed.

Lemma keyed_by_name_run (tr : list Call) (st : state) :
  keyed_by_name st -> keyed_by_name (run tr st).
Proof.
  revert st. induction tr as [|e tr IH]; intros st Hst; [done|].
  apply IH. destruct e; simpl; [by apply keyed_by_name_register|done..].
Qed.

Lemma keyed_by_name_empty : keyed_by_name empty.
Proof. intros c k v. unfold registered. simpl. by rewrite lookup_empty. Qed.

(** Under a key discipline, the entries of a context hold one entry of
    the declared name of a declaration just registered. *)
Lemma one_entry_per_name (d : PyClass) (c : string) (st : state) :
  keyed_by_name st ->
  length (filter (fun e => __name__ e = __name__ d)
            (entries c (register_declaration d c st))) = 1.
Proof.
  intros Hst. unfold entries. rewrite registered_register_eq.
  rewrite <- insert_delete_eq.
  rewrite map_to_list_insert by apply lookup_delete_eq.
  rewrite fmap_cons, filter_cons_True by done. simpl. f_equal.
  destruct (filter _ _) as [|v rest] eqn:E; [reflexivity|exfalso].
  assert (Hv : v ∈ v :: rest) by left. rewrite <- E in Hv.
  apply list_elem_of_filter in Hv as [Hname Hv].
  apply list_elem_of_fmap in Hv as ([k v'] & -> & Hin).
  apply elem_of_map_to_list in Hin. simpl in Hname.
  apply lookup_delete_Some in Hin as [Hk Hlook].
  apply Hst in Hlook. congruence.
Qed.

End Registration.

(** C9. Registration is idempotent: registering a declaration a second
    time under the same context leaves the registry as it was after the
    first time, the context then holds one entry of that declared name, and
    processing the same declaration twice leaves the emitter in the state
    that processing it once does. *)
Theorem C9_registration_is_idempotent (tr : list Call) (d : PyClass) (c : string)
    (output : string) (options : Options) :
  let st := Emitter.run tr Emitter.empty in
  let once := Emitter.register_declaration d c st in
  Emitter.register_declaration d c once = once
  /\ length (filter (fun e => __name__ e = __name__ d)
               (Emitter.entries c (Emitter.register_declaration d c once))) = 1
  /\ Emitter.run (emission d output options ++ emission d output options) st
     = Emitter.run (emission d output options) st.
Proof.
  intros st once. subst once. split; [apply register_twice|]. split.
  - rewrite register_twice. apply one_entry_per_name.
    apply keyed_by_name_run, keyed_by_name_empty.
  - unfold Emitter.run, emission. simpl.
    rewrite register_after_flush. apply flush_twice.
Qed.

(** * Further properties of the command *)

(** ** The order of [dir] *)

Lemma leb_trans (a b c : string) :
  String.leb a b = true -> String.leb b c = true -> String.leb a c = true.
Proof.
  unfold String.leb. revert b c.
  induction a as [|x a IH]; intros [|y b] [|z c]; simpl; try done.
  unfold Ascii.compare.
  destruct (N.compare_spec (N_of_ascii x) (N_of_ascii y)) as [Exy|Lxy|Gxy];
    destruct (N.compare_spec (N_of_ascii y) (N_of_ascii z)) as [Eyz|Lyz|Gyz];
    destruct (N.compare_spec (N_of_ascii x) (N_of_ascii z)) as [Exz|Lxz|Gxz];
    try done; try lia.
  apply IH.
Qed.

#[local] Instance le_total : Total PyStr.le.
Proof. intros a b. apply String.leb_total. Qed.

#[local] Instance le_transitive : Transitive PyStr.le.
Proof. intros a b c. apply leb_trans. Qed.

Lemma StronglySorted_filter {A : Type} (R : relation A) (P : A -> Prop)
    `{forall x, Decision (P x)} (l : list A) :
  StronglySorted R l -> StronglySorted R (filter P l).
Proof.
  induction 1 as [|x l Hl IH Hx]; [constructor|].
  rewrite filter_cons. destruct (decide (P x)); [|exact IH].
  constructor; [exact IH|].
  apply Forall_forall. intros y Hy. apply list_elem_of_filter in Hy as [_ Hy].
  rewrite Forall_forall in Hx. by apply Hx.
Qed.

Lemma possibly_serializers_sorted (module : option Namespace) :
  StronglySorted PyStr.le (possibly_serializers module).
Proof.
  unfold possibly_serializers, dir.
  apply StronglySorted_filter, StronglySorted_merge_sort; apply _.
Qed.

Lemma possibly_serializers_NoDup (module : option Namespace) :
  NoDup (possibly_serializers module).
Proof.
  unfold possibly_serializers, dir. apply NoDup_filter.
  rewrite merge_sort_Permutation. apply NoDup_fst_map_to_list.
Qed.

(** X1. The scan visits the public names bound in the module once each,
    in the order of [sorted], and returns, in that order, the classes that
    pass the three tests: the result does not follow the order in which the
    module defines its classes. *)
Theorem X1_scan_follows_sorted_names (sys_modules : SysModules)
    (module_name : string) (serializer_name : option string) :
  exists names : list string,
    StronglySorted PyStr.le names
    /\ NoDup names
    /\ (forall name,
           name ∈ names
           <-> is_Some (attributes (sys_modules !! module_name) !! name)
               /\ PyStr.startswith name "_" = false)
    /\ _get_serializers_for_module sys_modules module_name serializer_name
       = Return (omap (candidate (sys_modules !! module_name) module_name serializer_name)
                   names).
Proof.
  exists (possibly_serializers (sys_modules !! module_name)).
  split; [apply possibly_serializers_sorted|].
  split; [apply possibly_serializers_NoDup|].
  split; [intros name; apply elem_of_possibly_serializers|].
  apply _get_serializers_for_module_total.
Qed.

(** X2. A class is in the result of the scan of a loaded module exactly
    when the module binds it under a name that does not start with an
    underscore and it passes the origin test, the name test and the
    subclass test of lines 25-31. *)
Theorem X2_scan_membership (sys_modules : SysModules) (module_name : string)
    (serializer_name : option string) (ns : Namespace) (cls : PyClass) :
  sys_modules !! module_name = Some ns ->
  (exists result,
      _get_serializers_for_module sys_modules module_name serializer_name = Return result
      /\ cls ∈ result)
  <-> (exists name,
          ns !! name = Some (Class cls)
          /\ PyStr.startswith name "_" = false
          /\ PyStr.contains module_name (__module__ cls) = true
          /\ (truthy serializer_name = true -> serializer_name = Some (__name__ cls))
          /\ is_serializer cls = true).
Proof.
  intros Hns. rewrite (elem_of_get_serializers _ _ serializer_name ns cls Hns).
  split; intros (name & Hb & Hpub & Hk); exists name.
  - unfold keeps in Hk.
    destruct (PyStr.contains module_name (__module__ cls)); [|discriminate].
    simpl in Hk. repeat split; try done.
    + intros Ht. rewrite Ht in Hk. simpl in Hk.
      destruct serializer_name as [n|]; [|discriminate]. simpl in Hk.
      destruct (String.eqb_spec (__name__ cls) n) as [->|]; [done|discriminate].
    + by destruct (truthy serializer_name && name_differs cls serializer_name).
  - destruct Hk as (Hc & Hn & Hser). repeat split; try done.
    unfold keeps. rewrite Hc. simpl.
    destruct (truthy serializer_name) eqn:Ht; [|done].
    rewrite (Hn eq_refl). simpl. by rewrite String.eqb_refl.
Qed.

Lemma X2_scan_membership_witness :
  Billing.modules !! "billing.serializers"
  = Some {[ "InvoiceSerializer" := Class Billing.InvoiceSerializer;
            "LineItemSerializer" := Class Billing.LineItemSerializer;
            "SharedSerializer" := Class Billing.SharedSerializer;
            "_helper" := NotAClass;
            "internal" := NotAClass ]}
  /\ exists result,
       _get_serializers_for_module Billing.modules "billing.serializers"
         (Some "InvoiceSerializer") = Return result
       /\ Billing.InvoiceSerializer ∈ result.
Proof.
  assert (Hns : Billing.modules !! "billing.serializers"
                = Some {[ "InvoiceSerializer" := Class Billing.InvoiceSerializer;
                          "LineItemSerializer" := Class Billing.LineItemSerializer;
                          "SharedSerializer" := Class Billing.SharedSerializer;
                          "_helper" := NotAClass;
                          "internal" := NotAClass ]}).
  { vm_compute. reflexivity. }
  split; [exact Hns|].
  apply (X2_scan_membership Billing.modules "billing.serializers"
           (Some "InvoiceSerializer") _ Billing.InvoiceSerializer Hns).
  exists "InvoiceSerializer". repeat split; vm_compute; reflexivity.
Defined.

(** ** The name filter (line 28) *)

Lemma keeps_empty_name (module_name : string) (cls : PyClass) :
  keeps module_name (Some "") cls = keeps module_name None cls.
Proof. reflexivity. Qed.

(** X3. An empty [serializer_name] filters nothing: the scan returns what
    it returns without a name, so that a specifier that ends in its only
    dot ([app.]) resolves to every serializer found in the module [app]. *)
Theorem X3_empty_name_filters_nothing (sys_modules : SysModules)
    (module_name specifier : string) :
  _get_serializers_for_module sys_modules module_name (Some "")
  = _get_serializers_for_module sys_modules module_name None
  /\ (PyStr.split "." specifier = [module_name; ""] ->
      resolve sys_modules (Str specifier)
      = _get_serializers_for_module sys_modules module_name None).
Proof.
  assert (E : _get_serializers_for_module sys_modules module_name (Some "")
              = _get_serializers_for_module sys_modules module_name None).
  { rewrite !_get_serializers_for_module_total. reflexivity. }
  split; [exact E|].
  intros Hsplit. by rewrite (resolve_two_segments _ _ _ _ Hsplit).
Qed.

Lemma X3_empty_name_filters_nothing_witness :
  PyStr.split "." "billing." = ["billing"; ""]
  /\ resolve Billing.modules (Str "billing.")
     = _get_serializers_for_module Billing.modules "billing" None.
Proof.
  split; [reflexivity|].
  apply (X3_empty_name_filters_nothing Billing.modules "billing" "billing.").
  reflexivity.
Defined.

(** ** Names bound to the same class *)

Lemma omap_cons_Some {A B : Type} (f : A -> option B) (x : A) (y : B) (l : list A) :
  f x = Some y -> omap f (x :: l) = y :: omap f l.
Proof. intros H. simpl. by rewrite H. Qed.

(** ** Specifiers and their dots *)

Section Dots.

Variable sep : ascii.

Lemma length_split (s : string) :
  length (PyStr.split sep s) = S (count_sep sep s).
Proof.
  induction s as [|c s IH]; [reflexivity|]. simpl.
  destruct (Ascii.eqb c sep); simpl; [by rewrite IH|].
  destruct (PyStr.split sep s); simpl in *; [discriminate|exact IH].
Qed.

Lemma split_without_sep (s : string) :
  count_sep sep s = 0 -> PyStr.split sep s = [s].
Proof.
  induction s as [|c s IH]; [reflexivity|]. simpl.
  destruct (Ascii.eqb c sep); [discriminate|].
  intros H. by rewrite (IH H).
Qed.

Lemma split_at_first_sep (a b : string) :
  count_sep sep a = 0 ->
  PyStr.split sep (a +:+ String sep b) = a :: PyStr.split sep b.
Proof.
  induction a as [|c a IH]; simpl.
  - by rewrite Ascii.eqb_refl.
  - destruct (Ascii.eqb c sep); [discriminate|].
    intros H. by rewrite (IH H).
Qed.

(** The first segment of a split holds no separator, and the string is
    that segment, alone or followed by a separator and the rest. *)
Lemma head_of_split (s : string) :
  exists h t,
    PyStr.split sep s = h :: t
    /\ count_sep sep h = 0
    /\ (s = h \/ exists rest, s = h +:+ String sep rest).
Proof.
  induction s as [|c s (h & t & E & Hh & Hs)]; simpl.
  - exists "", []. auto.
  - destruct (Ascii.eqb_spec c sep) as [->|Hne].
    + exists "", (PyStr.split sep s). repeat split; eauto.
    + rewrite E. exists (String c h), t. split; [done|]. split.
      * simpl. destruct (Ascii.eqb_spec c sep); [done|exact Hh].
      * destruct Hs as [->|[rest ->]]; [by left|right]. by exists rest.
Qed.

End Dots.

(** X5. The shape of a specifier is read off its dots. Without a dot, the
    module [<specifier>.serializers] is scanned; with one dot, the module
    named before the dot, for the class name after it; with two dots or
    more, the module named by the whole specifier. *)
Theorem X5_dispatch_on_dots (sys_modules : SysModules) (specifier : string) :
  (count_sep "." specifier = 0 ->
   resolve sys_modules (Str specifier)
   = _get_serializers_for_module sys_modules (specifier +:+ ".serializers") None)
  /\ (forall a b,
         specifier = a +:+ "." +:+ b ->
         count_sep "." a = 0 ->
         count_sep "." b = 0 ->
         resolve sys_modules (Str specifier)
         = _get_serializers_for_module sys_modules a (Some b))
  /\ (2 <= count_sep "." specifier ->
      resolve sys_modules (Str specifier)
      = _get_serializers_for_module sys_modules specifier None).
Proof.
  repeat split.
  - intros H. apply resolve_one_segment. by apply split_without_sep.
  - intros a b -> Ha Hb. apply resolve_two_segments.
    change (a +:+ "." +:+ b) with (a +:+ String "." b).
    by rewrite split_at_first_sep, (split_without_sep _ b Hb).
  - intros H. apply resolve_more_segments. rewrite length_split. lia.
Qed.

Lemma X5_dispatch_on_dots_witness :
  count_sep "." "billing" = 0
  /\ resolve Billing.modules (Str "billing")
     = _get_serializers_for_module Billing.modules "billing.serializers" None
  /\ resolve Billing.modules (Str "billing.InvoiceSerializer")
     = _get_serializers_for_module Billing.modules "billing" (Some "InvoiceSerializer")
  /\ resolve Billing.modules (Str "billing.serializers.internal")
     = _get_serializers_for_module Billing.modules "billing.serializers.internal" None.
Proof.
  split; [reflexivity|]. split; [|split].
  - apply (X5_dispatch_on_dots Billing.modules "billing"). reflexivity.
  - apply (proj1 (proj2 (X5_dispatch_on_dots Billing.modules "billing.InvoiceSerializer"))
             "billing" "InvoiceSerializer"); reflexivity.
  - apply (X5_dispatch_on_dots Billing.modules "billing.serializers.internal").
    vm_compute. lia.
Defined.

(** X6. The output context of a class holds no dot, and the [__module__]
    of the class is that context, alone or followed by a dot and the rest
    of the path: classes of [app.serializers] and of any module below [app]
    share the context [app]. *)
Theorem X6_context_is_leading_package (cls : PyClass) :
  count_sep "." (OutputContext cls) = 0
  /\ (__module__ cls = OutputContext cls
      \/ exists rest, __module__ cls = OutputContext cls +:+ "." +:+ rest).
Proof.
  unfold OutputContext.
  destruct (head_of_split "." (__module__ cls)) as (h & t & -> & Hh & Hs).
  simpl. split; [exact Hh|exact Hs].
Qed.

(** ** Explicit specifiers (lines 151-167) *)

Lemma handle_explicit (host : Host) (serializers : list string) (output : string)
    (options : Options) :
  handle host serializers output false options
  = process host (Str <$> serializers) output options.
Proof. unfold handle. simpl. apply lift_Return_bind. Qed.

Lemma resolved_strs_outcome (sys_modules : SysModules) (specifiers : list string) :
  (resolved sys_modules (Str <$> specifiers)).1 = Return tt.
Proof.
  induction specifiers as [|s l IH]; [reflexivity|].
  rewrite fmap_cons. cbn [resolved].
  destruct (resolve_str_total sys_modules s) as [found ->].
  by destruct (resolved sys_modules (Str <$> l)).
Qed.

Lemma resolved_strs_app (sys_modules : SysModules) (l1 l2 : list string) :
  (resolved sys_modules (Str <$> (l1 ++ l2))).2
  = (resolved sys_modules (Str <$> l1)).2 ++ (resolved sys_modules (Str <$> l2)).2.
Proof.
  induction l1 as [|s l1 IH]; [reflexivity|].
  rewrite <- app_comm_cons, !fmap_cons. cbn [resolved].
  destruct (resolve_str_total sys_modules s) as [found ->].
  destruct (resolved sys_modules (Str <$> (l1 ++ l2))) as [r1 d1].
  destruct (resolved sys_modules (Str <$> l1)) as [r2 d2].
  simpl in *. by rewrite IH, app_assoc.
Qed.

Lemma elem_of_resolved_strs (sys_modules : SysModules) (specifiers : list string)
    (cls : PyClass) :
  cls ∈ (resolved sys_modules (Str <$> specifiers)).2
  <-> exists s found,
        s ∈ specifiers /\ resolve sys_modules (Str s) = Return found /\ cls ∈ found.
Proof.
  induction specifiers as [|s l IH].
  - simpl. split; [by intros ?%not_elem_of_nil|].
    by intros (s & found & ?%not_elem_of_nil & _).
  - rewrite fmap_cons. cbn [resolved].
    destruct (resolve_str_total sys_modules s) as [found Hfound]. rewrite Hfound.
    destruct (resolved sys_modules (Str <$> l)) as [r later] eqn:E. simpl in *.
    rewrite elem_of_app, IH. split.
    + intros [Hin|(s' & found' & Hs' & Hr & Hin)].
      * exists s, found. split; [left|done].
      * exists s', found'. split; [by right|done].
    + intros (s' & found' & Hs' & Hr & Hin).
      apply elem_of_cons in Hs' as [->|Hs'].
      * left. congruence.
      * right. eauto.
Qed.

(** X7. With explicit specifiers the command raises nothing of its own,
    whatever the strings and whatever is loaded, and the calls of a run on
    two lists of specifiers, one after the other, are the calls of the run
    on the first followed by those of the run on the second. *)
Theorem X7_explicit_mode_composes (host : Host) (l1 l2 : list string)
    (output : string) (options : Options) :
  outcome (handle host (l1 ++ l2) output false options) = Return tt
  /\ calls (handle host (l1 ++ l2) output false options)
     = calls (handle host l1 output false options)
         ++ calls (handle host l2 output false options).
Proof.
  rewrite !handle_explicit, !process_resolved. unfold outcome, calls. simpl.
  split; [apply resolved_strs_outcome|].
  by rewrite resolved_strs_app, bind_app.
Qed.

(** X8. With explicit specifiers a class is registered exactly when one
    of the specifiers resolves to it, and then under its own output
    context. *)
Theorem X8_registered_iff_resolved (host : Host) (serializers : list string)
    (output : string) (options : Options) (c : string) (cls : PyClass) :
  ts_interface c cls ∈ calls (handle host serializers output false options)
  <-> c = OutputContext cls
      /\ exists s found,
           s ∈ serializers
           /\ resolve (sys_modules host) (Str s) = Return found
           /\ cls ∈ found.
Proof.
  rewrite handle_explicit, process_resolved. unfold calls. simpl.
  split.
  - intros H. apply registration_context in H as [Hin ->].
    split; [reflexivity|]. by apply elem_of_resolved_strs.
  - intros [-> Hin]. apply elem_of_resolved_strs in Hin.
    apply list_elem_of_bind. exists cls. split; [left|done].
Qed.

(** ** The calls of any run *)

(** X9. The calls of a run, in any mode, are a sequence of triples, one
    per processed class: its registration under its context, the flush of
    that context to [<output>/<context>/index.ts] with the keyword
    arguments taken unchanged from the options, and the line
    [[+] <module>.<name>]. A run that raises has made no call. *)
Theorem X9_calls_are_triples (host : Host) (serializers : list string)
    (output : string) (all : bool) (options : Options) :
  (exists processed : list PyClass,
      calls (handle host serializers output all options)
      = processed ≫= fun cls =>
          [ ts_interface (OutputContext cls) cls;
            generate_ts [output; OutputContext cls; "index.ts"] (OutputContext cls)
              (kwargs_of options);
            stdout_write (label cls) ])
  /\ (outcome (handle host serializers output all options) <> Return tt ->
      calls (handle host serializers output all options) = []).
Proof.
  split; [apply handle_calls|].
  destruct all.
  - intros _. apply all_packages_emits_nothing.
  - intros H. destruct H.
    pose proof (X := resolved_strs_outcome (sys_modules host) serializers).
    rewrite handle_explicit, process_resolved. exact X.
Qed.

Lemma X9_calls_are_triples_witness :
  outcome (handle Billing.host [] "./types" true Billing.options) <> Return tt
  /\ calls (handle Billing.host [] "./types" true Billing.options) = [].
Proof.
  assert (H : outcome (handle Billing.host [] "./types" true Billing.options)
              <> Return tt) by (vm_compute; discriminate).
  split; [exact H|].
  exact (proj2 (X9_calls_are_triples Billing.host [] "./types" true Billing.options) H).
Defined.

(** ** The [--all] mode (lines 143-149) *)

Lemma extend_with_all_found (host : Host) (apps : list AppConfig.t)
    (serializers : list PyVal) :
  exists found : list PyClass,
    extend_with_all host apps serializers = Return (serializers ++ (Cls <$> found))
    /\ (found = []
        <-> forall app,
              app ∈ apps ->
              is_external host app = false ->
              _get_app_serializers (sys_modules host) (AppConfig.name app) = Return []).
Proof.
  revert serializers. induction apps as [|app apps IH]; intros acc; simpl.
  - exists []. rewrite app_nil_r. split; [done|]. split; [|done].
    by intros _ app ?%not_elem_of_nil.
  - destruct (is_external host app) eqn:Hext.
    + destruct (IH acc) as (found & -> & Hiff). exists found. split; [done|].
      rewrite Hiff. split.
      * intros H a [->|Ha]%elem_of_cons Hx; [congruence|by apply H].
      * intros H a Ha. apply H. by right.
    + unfold _get_app_serializers in *.
      destruct (_get_serializers_for_module (sys_modules host)
                  (AppConfig.name app +:+ ".serializers") None) as [l|e] eqn:El;
        [|by rewrite _get_serializers_for_module_total in El].
      simpl. destruct (IH (acc ++ (Cls <$> l))) as (found & -> & Hiff).
      exists (l ++ found). split; [by rewrite fmap_app, app_assoc|].
      split.
      * intros [-> ->]%app_eq_nil a [->|Ha]%elem_of_cons Hx; [done|].
        by apply Hiff.
      * intros H. assert (l = []) as ->.
        { specialize (H app (list_elem_of_here _ _) Hext). congruence. }
        simpl. apply Hiff. intros a Ha. apply H. by right.
Qed.

(** X10. Under [--all] (and no specifier) no call is ever made. The run
    returns when every application that passes the path filter has no
    serializer in its [serializers] module, and only then; otherwise it
    ends in [AttributeError]. *)
Theorem X10_all_mode_outcome (host : Host) (output : string) (options : Options) :
  calls (handle host [] output true options) = []
  /\ (outcome (handle host [] output true options) = Return tt
      <-> forall app,
            app ∈ get_app_configs host ->
            is_external host app = false ->
            _get_app_serializers (sys_modules host) (AppConfig.name app) = Return [])
  /\ (outcome (handle host [] output true options) = Return tt
      \/ exists msg,
           outcome (handle host [] output true options) = Raise (AttributeError msg)).
Proof.
  split; [apply all_packages_emits_nothing|].
  rewrite handle_all_empty.
  destruct (extend_with_all_found host (get_app_configs host) []) as (found & -> & Hiff).
  rewrite lift_Return_bind. simpl. rewrite <- Hiff.
  destruct found as [|cls found]; simpl.
  - split; [done|by left].
  - split; [split; discriminate|right; eauto].
Qed.

(** ** The substring tests (lines 25 and 146) *)

Lemma prefix_spec (p s : string) :
  String.prefix p s = true <-> exists post, s = p +:+ post.
Proof.
  revert s. induction p as [|a p IH]; intros s.
  - split; [eauto|]. by destruct s.
  - destruct s as [|b s]; cbn [String.prefix].
    + split; [discriminate|]. intros [post [=]].
    + destruct (Ascii.ascii_dec a b) as [->|Hne].
      * rewrite IH. split; intros [post E]; exists post.
        -- by rewrite E.
        -- change (String b p +:+ post) with (String b (p +:+ post)) in E.
           by injection E.
      * split; [discriminate|]. intros [post E].
        change (String a p +:+ post) with (String a (p +:+ post)) in E.
        injection E as -> _. done.
Qed.

Lemma contains_of_prefix (needle hay : string) :
  String.prefix needle hay = true -> PyStr.contains needle hay = true.
Proof. intros H. destruct hay; cbn [PyStr.contains]; by rewrite H. Qed.

Lemma contains_spec (needle hay : string) :
  PyStr.contains needle hay = true
  <-> exists pre post, hay = pre +:+ needle +:+ post.
Proof.
  split.
  - induction hay as [|c hay IH]; cbn [PyStr.contains]; intros H.
    + apply orb_true_iff in H as [H|[=]].
      apply prefix_spec in H as [post ->]. by exists "", post.
    + apply orb_true_iff in H as [H|H].
      * apply prefix_spec in H as [post ->]. by exists "", post.
      * destruct (IH H) as (pre & post & ->). by exists (String c pre), post.
  - intros (pre & post & ->). induction pre as [|c pre IH].
    + apply contains_of_prefix, prefix_spec. by exists post.
    + change (String c pre +:+ needle +:+ post)
        with (String c (pre +:+ needle +:+ post)).
      cbn [PyStr.contains]. rewrite IH. apply orb_true_r.
Qed.

Lemma string_app_assoc (a b c : string) : (a +:+ b) +:+ c = a +:+ (b +:+ c).
Proof.
  induction a as [|x a IH]; [done|].
  change (String x ((a +:+ b) +:+ c) = String x (a +:+ (b +:+ c))).
  by rewrite IH.
Qed.

Lemma contains_trans (a b c : string) :
  PyStr.contains a b = true -> PyStr.contains b c = true -> PyStr.contains a c = true.
Proof.
  rewrite !contains_spec. intros (p1 & q1 & ->) (p2 & q2 & ->).
  exists (p2 +:+ p1), (q1 +:+ q2). by rewrite !string_app_assoc.
Qed.

(** X11. The origin test of line 25 is a substring test: without a name
    filter, the scan keeps a class exactly when it derives from the base
    serializer and its [__module__] reads some prefix, then the scanned
    module name, then some suffix. A class of a submodule of the scanned
    module passes, and so does one of a module whose name only ends with
    the scanned name. *)
Theorem X11_origin_test_is_substring (module_name : string) (cls : PyClass) :
  keeps module_name None cls = true
  <-> is_serializer cls = true
      /\ exists pre post, __module__ cls = pre +:+ module_name +:+ post.
Proof.
  rewrite keeps_None, andb_true_iff, contains_spec. tauto.
Qed.

(** X12. The path filter of line 146 is made of substring tests too: when
    [.venv] occurs in the path of the parent of [BASE_DIR] itself, every
    installed application is skipped and [--all] returns without a call. *)
Theorem X12_project_below_venv (host : Host) (output : string) (options : Options) :
  PyStr.contains ".venv" (BASE_DIR_parent host) = true ->
  (forall app, is_external host app = true)
  /\ handle host [] output true options = (Return tt, []).
Proof.
  intros Hvenv.
  assert (Hext : forall app, is_external host app = true).
  { intros app. unfold is_external.
    destruct (PyStr.contains (BASE_DIR_parent host) (AppConfig.path app)) eqn:E;
      [|reflexivity].
    simpl. by apply (contains_trans _ (BASE_DIR_parent host)). }
  split; [exact Hext|].
  rewrite handle_all_empty.
  destruct (extend_with_all_found host (get_app_configs host) []) as (found & -> & Hiff).
  assert (found = []) as ->.
  { apply Hiff. intros app _ Hx. rewrite Hext in Hx. discriminate. }
  reflexivity.
Qed.

Lemma X12_project_below_venv_witness :
  PyStr.contains ".venv"
    (BASE_DIR_parent
       {| sys_modules := Billing.modules;
          get_app_configs :=
            [ {| AppConfig.name := "billing";
                 AppConfig.path := "/home/dev/.venv-projects/shop/billing" |} ];
          BASE_DIR_parent := "/home/dev/.venv-projects" |}) = true
  /\ handle
       {| sys_modules := Billing.modules;
          get_app_configs :=
            [ {| AppConfig.name := "billing";
                 AppConfig.path := "/home/dev/.venv-projects/shop/billing" |} ];
          BASE_DIR_parent := "/home/dev/.venv-projects" |}
       [] "./types" true Billing.options = (Return tt, []).
Proof.
  split; [reflexivity|].
  apply (X12_project_below_venv
           {| sys_modules := Billing.modules;
              get_app_configs :=
                [ {| AppConfig.name := "billing";
                     AppConfig.path := "/home/dev/.venv-projects/shop/billing" |} ];
              BASE_DIR_parent := "/home/dev/.venv-projects" |}
           "./types" Billing.options).
  reflexivity.
Defined.

(** ** Resolution misses (lines 15-16, 28 and 151-167) *)

(** With explicit specifiers, what a specifier resolves to is registered,
    wherever the specifier stands in the list. *)
Lemma resolved_is_registered (host : Host) (serializers : list string)
    (output : string) (options : Options) (s : string) (found : list PyClass)
    (cls : PyClass) :
  s ∈ serializers ->
  resolve (sys_modules host) (Str s) = Return found ->
  cls ∈ found ->
  ts_interface (OutputContext cls) cls
    ∈ calls (handle host serializers output false options).
Proof.
  intros Hs Hfound Hcls. rewrite handle_explicit, process_resolved.
  unfold calls. simpl. apply list_elem_of_bind. exists cls. split; [left|].
  apply elem_of_resolved_strs. eauto.
Qed.

(** C6, as stated, fails: [billing.] names a declaration that matches
    nothing (no class that the package [billing] binds has the empty name)
    and yet resolves to the serializer that the package re-exports, because
    line 28 applies the name filter only to a name that is true. *)
Lemma C6_empty_name_resolves_to_classes :
  ~ (names_absent_declaration modules_with_reexport "billing." ->
     resolve modules_with_reexport (Str "billing.") = Return []).
Proof.
  intros H.
  assert (Habsent : names_absent_declaration modules_with_reexport "billing.").
  { exists "billing", "". split; [reflexivity|].
    intros ns name cls Hns Hb Hname.
    assert (Hin : name ∈ dir (Some ns)) by (apply elem_of_dir; simpl; eauto).
    revert Hin Hb. injection Hns as <-.
    assert (Hall : Forall (fun n => forall c,
               ({[ "InvoiceSerializer" := Class Billing.InvoiceSerializer;
                   "_Draft" := Class Draft;
                   "serializers" := NotAClass ]} : Namespace) !! n = Some (Class c) ->
               __name__ c <> "")
             (dir (Some {[ "InvoiceSerializer" := Class Billing.InvoiceSerializer;
                           "_Draft" := Class Draft;
                           "serializers" := NotAClass ]}))).
    { vm_compute. repeat constructor; intros c [=]; subst; discriminate. }
    rewrite Forall_forall in Hall. intros Hin Hb. by apply (Hall name Hin cls). }
  specialize (H Habsent). vm_compute in H. discriminate.
Qed.

(** C6, amended. A specifier whose namespace is not a loaded module, and a
    specifier [namespace.Name] whose [Name] is not empty and is the name of
    no public serializer of the scanned module, resolve to the empty list
    without raising. The run then goes on as if the specifier were not in
    the list: it ends without an exception of its own, makes the calls of
    the run on the remaining specifiers, and registers every class that a
    remaining specifier resolves to. *)
Theorem C6_resolution_miss_is_silent (host : Host) (specifier : string)
    (rest : list string) (tail : list PyVal) (output : string) (options : Options) :
  unresolved_namespace (sys_modules host) specifier
  \/ names_unmatched_declaration (sys_modules host) specifier ->
  resolve (sys_modules host) (Str specifier) = Return []
  /\ process host (Str specifier :: tail) output options
     = process host tail output options
  /\ handle host (specifier :: rest) output false options
     = handle host rest output false options
  /\ outcome (handle host (specifier :: rest) output false options) = Return tt
  /\ (forall s found cls,
         s ∈ rest ->
         resolve (sys_modules host) (Str s) = Return found ->
         cls ∈ found ->
         ts_interface (OutputContext cls) cls
           ∈ calls (handle host (specifier :: rest) output false options)).
Proof.
  intros Hmiss.
  assert (E : resolve (sys_modules host) (Str specifier) = Return []).
  { destruct Hmiss as [Hunloaded|(app_name & serializer_name & Hsplit & Hne & Hnames)].
    - destruct (resolve_scanned_namespace (sys_modules host) specifier) as [n ->].
      by apply _get_serializers_for_module_unloaded.
    - rewrite (resolve_two_segments _ _ _ _ Hsplit).
      by apply unmatched_name_resolves_to_nothing. }
  split; [exact E|]. split; [by apply process_skip|].
  split; [rewrite !handle_explicit, fmap_cons; by apply process_skip|].
  split.
  - rewrite handle_explicit, process_resolved. apply resolved_strs_outcome.
  - intros s found cls Hs Hfound Hcls.
    apply (resolved_is_registered host (specifier :: rest) output options s found cls);
      [by right|done..].
Qed.

Lemma C6_resolution_miss_is_silent_witness :
  (* an unloaded namespace *)
  unresolved_namespace (sys_modules Billing.host) "payments"
  /\ calls (handle Billing.host ["payments"; "billing"] "./types" false Billing.options)
     = emission Billing.InvoiceSerializer "./types" Billing.options
         ++ emission Billing.LineItemSerializer "./types" Billing.options
  /\ ts_interface "billing" Billing.InvoiceSerializer
       ∈ calls (handle Billing.host ["payments"; "billing"] "./types" false
                  Billing.options)
  (* a name that matches no public serializer of a module that binds classes *)
  /\ names_unmatched_declaration (sys_modules host_with_reexport) "billing.Draft"
  /\ resolve (sys_modules host_with_reexport) (Str "billing.Draft") = Return []
  /\ ts_interface "billing" Billing.InvoiceSerializer
       ∈ calls (handle host_with_reexport ["billing.Draft"; "billing.InvoiceSerializer"]
                  "./types" false Billing.options).
Proof.
  assert (H1 : unresolved_namespace (sys_modules Billing.host) "payments").
  { vm_compute. reflexivity. }
  assert (H2 : names_unmatched_declaration (sys_modules host_with_reexport)
                 "billing.Draft").
  { exists "billing", "Draft". split; [reflexivity|]. split; [discriminate|].
    intros ns name cls Hns Hb Hpub _ _ Hname.
    assert (Hin : name ∈ possibly_serializers (Some ns)).
    { apply elem_of_possibly_serializers. simpl. rewrite Hb. eauto. }
    revert Hin Hb. injection Hns as <-.
    assert (Hall : Forall (fun n => forall c,
               ({[ "InvoiceSerializer" := Class Billing.InvoiceSerializer;
                   "_Draft" := Class Draft;
                   "serializers" := NotAClass ]} : Namespace) !! n = Some (Class c) ->
               __name__ c <> "Draft")
             (possibly_serializers
                (Some {[ "InvoiceSerializer" := Class Billing.InvoiceSerializer;
                         "_Draft" := Class Draft;
                         "serializers" := NotAClass ]}))).
    { vm_compute. repeat constructor; intros c [=]; subst; discriminate. }
    rewrite Forall_forall in Hall. intros Hin Hb. by apply (Hall name Hin cls). }
  destruct (C6_resolution_miss_is_silent Billing.host "payments" ["billing"] []
              "./types" Billing.options (or_introl H1))
    as (_ & _ & Hrun & _ & Hreg).
  destruct (C6_resolution_miss_is_silent host_with_reexport "billing.Draft"
              ["billing.InvoiceSerializer"] [] "./types" Billing.options (or_intror H2))
    as (Hnil & _ & _ & _ & Hreg').
  split; [exact H1|].
  split; [rewrite Hrun; vm_compute; reflexivity|].
  split.
  { apply (Hreg "billing" [Billing.InvoiceSerializer; Billing.LineItemSerializer]
             Billing.InvoiceSerializer);
      [apply list_elem_of_here|vm_compute; reflexivity|apply list_elem_of_here]. }
  split; [exact H2|]. split; [exact Hnil|].
  apply (Hreg' "billing.InvoiceSerializer" [Billing.InvoiceSerializer]
           Billing.InvoiceSerializer);
    [apply list_elem_of_here|vm_compute; reflexivity|apply list_elem_of_here].
Defined.

(** ** A class bound under two names is processed twice *)

Lemma two_positions {A : Type} (l : list A) (x : A) (rest : list A) :
  l ≡ₚ x :: x :: rest ->
  exists i j, i <> j /\ l !! i = Some x /\ l !! j = Some x.
Proof.
  intros Hp. assert (Hx : x ∈ l) by (rewrite Hp; left).
  apply list_elem_of_split in Hx as (l1 & l2 & ->).
  rewrite <- Permutation_middle in Hp. apply Permutation_cons_inv in Hp.
  assert (Hx : x ∈ l1 ++ l2) by (rewrite Hp; left).
  apply elem_of_app in Hx as [Hx|Hx]; apply list_elem_of_lookup in Hx as [k Hk].
  - exists k, (length l1). pose proof (lookup_lt_Some _ _ _ Hk).
    split; [lia|]. split; [by apply lookup_app_l_Some|by apply list_lookup_middle].
  - exists (length l1), (length l1 + S k).
    split; [lia|]. split; [by apply list_lookup_middle|].
    rewrite lookup_app_r by lia.
    replace (length l1 + S k - length l1) with (S k) by lia. exact Hk.
Qed.

Lemma registration_at (processed : list PyClass) (k : nat) (cls : PyClass)
    (output : string) (options : Options) :
  processed !! k = Some cls ->
  (processed ≫= fun s => emission s output options) !! (3 * k)
  = Some (ts_interface (OutputContext cls) cls).
Proof.
  revert k. induction processed as [|d l IH]; intros k; [by rewrite lookup_nil|].
  destruct k as [|k]; simpl.
  - by intros [= ->].
  - intros Hk. replace (k + S (k + S (k + 0))) with (S (S (3 * k))) by lia.
    simpl. by apply IH.
Qed.

Lemma resolved_cons_str (sys_modules : SysModules) (s : string) (vs : list PyVal)
    (result : list PyClass) :
  resolve sys_modules (Str s) = Return result ->
  (resolved sys_modules (Str s :: vs)).2 = result ++ (resolved sys_modules vs).2.
Proof. intros E. cbn [resolved]. rewrite E. by destruct (resolved sys_modules vs). Qed.

(** X4. The scan goes by bound names, not by classes: a serializer that
    the scanned module binds under two public names is returned twice, and
    a run with a specifier that resolves through this scan processes it
    twice: the class is registered at two places of the run. *)
Theorem X4_alias_is_processed_twice (host : Host) (serializers : list string)
    (specifier : string) (output : string) (options : Options)
    (module_name : string) (serializer_name : option string) (ns : Namespace)
    (name1 name2 : string) (cls : PyClass) :
  specifier ∈ serializers ->
  resolve (sys_modules host) (Str specifier)
  = _get_serializers_for_module (sys_modules host) module_name serializer_name ->
  sys_modules host !! module_name = Some ns ->
  name1 <> name2 ->
  ns !! name1 = Some (Class cls) ->
  ns !! name2 = Some (Class cls) ->
  PyStr.startswith name1 "_" = false ->
  PyStr.startswith name2 "_" = false ->
  keeps module_name serializer_name cls = true ->
  (exists result rest,
      _get_serializers_for_module (sys_modules host) module_name serializer_name
      = Return result
      /\ result ≡ₚ cls :: cls :: rest)
  /\ (exists i j,
         i <> j
         /\ calls (handle host serializers output false options) !! i
            = Some (ts_interface (OutputContext cls) cls)
         /\ calls (handle host serializers output false options) !! j
            = Some (ts_interface (OutputContext cls) cls)).
Proof.
  intros Hs Hres Hns Hne Hb1 Hb2 Hp1 Hp2 Hk.
  assert (Htwice : exists result rest,
             _get_serializers_for_module (sys_modules host) module_name serializer_name
             = Return result
             /\ result ≡ₚ cls :: cls :: rest).
  { rewrite _get_serializers_for_module_total, Hns.
    assert (H1 : name1 ∈ possibly_serializers (Some ns)).
    { apply elem_of_possibly_serializers. simpl. rewrite Hb1. eauto. }
    assert (H2 : name2 ∈ possibly_serializers (Some ns)).
    { apply elem_of_possibly_serializers. simpl. rewrite Hb2. eauto. }
    apply elem_of_Permutation in H1 as [l1 Hl1].
    rewrite Hl1 in H2. apply elem_of_cons in H2 as [?|H2]; [congruence|].
    apply elem_of_Permutation in H2 as [l2 Hl2].
    eexists. exists (omap (candidate (Some ns) module_name serializer_name) l2).
    split; [reflexivity|].
    rewrite Hl1, Hl2.
    rewrite (omap_cons_Some _ name1 cls), (omap_cons_Some _ name2 cls);
      [reflexivity| |]; unfold candidate; simpl.
    - by rewrite Hb2, Hk.
    - by rewrite Hb1, Hk. }
  split; [exact Htwice|].
  destruct Htwice as (result & rest & Hresult & Hperm).
  rewrite <- Hres in Hresult.
  destruct (two_positions _ _ _ Hperm) as (i & j & Hij & Hi & Hj).
  apply list_elem_of_split in Hs as (l1 & l2 & ->).
  rewrite handle_explicit, process_resolved. unfold calls. simpl.
  set (before := (resolved (sys_modules host) (Str <$> l1)).2).
  set (after := (resolved (sys_modules host) (Str <$> l2)).2).
  assert (Hblock : (resolved (sys_modules host) (Str <$> (l1 ++ specifier :: l2))).2
                   = before ++ result ++ after).
  { rewrite resolved_strs_app, fmap_cons. by rewrite (resolved_cons_str _ _ _ _ Hresult). }
  rewrite Hblock.
  exists (3 * (length before + i)), (3 * (length before + j)).
  split; [lia|].
  split; apply registration_at; rewrite lookup_app_r by lia.
  - replace (length before + i - length before) with i by lia.
    by apply lookup_app_l_Some.
  - replace (length before + j - length before) with j by lia.
    by apply lookup_app_l_Some.
Qed.

Lemma X4_alias_is_processed_twice_witness :
  "billing" ∈ ["billing"]
  /\ calls (handle host_with_alias ["billing"] "./types" false Billing.options)
     = emission Billing.InvoiceSerializer "./types" Billing.options
         ++ emission Billing.InvoiceSerializer "./types" Billing.options
  /\ exists i j,
       i <> j
       /\ calls (handle host_with_alias ["billing"] "./types" false Billing.options) !! i
          = Some (ts_interface (OutputContext Billing.InvoiceSerializer)
                    Billing.InvoiceSerializer)
       /\ calls (handle host_with_alias ["billing"] "./types" false Billing.options) !! j
          = Some (ts_interface (OutputContext Billing.InvoiceSerializer)
                    Billing.InvoiceSerializer).
Proof.
  split; [apply list_elem_of_here|]. split; [vm_compute; reflexivity|].
  apply (X4_alias_is_processed_twice host_with_alias ["billing"] "billing" "./types"
           Billing.options "billing.serializers" None
           {[ "InvoiceSerializer" := Class Billing.InvoiceSerializer;
              "Invoice" := Class Billing.InvoiceSerializer ]}
           "Invoice" "InvoiceSerializer" Billing.InvoiceSerializer).
  - apply list_elem_of_here.
  - reflexivity.
  - vm_compute. reflexivity.
  - discriminate.
  - vm_compute. reflexivity.
  - vm_compute. reflexivity.
  - reflexivity.
  - reflexivity.
  - vm_compute. reflexivity.
Defined.
